(** * Live-plot update engine of [automate/qtgraph.py]

    A shallow embedding of the three classes of [automate/qtgraph.py]
    ([ResultsCurve], [BufferCurve], [Crosshairs]) and the properties of the
    specification checked against them.

    Python objects are records of their attributes; a method is a function
    from the object to an outcome and the object as the call left it.  An
    exception does not roll the object back, so the state reached at the
    [raise] is part of the result.  The plotting toolkit is kept as what the
    calls hand to it: the arguments of the last [setData], of the last
    [setOpts], of [setPos], and the log of emitted signals. *)

From Stdlib Require Import ZArith Lia PrimFloat.
From stdpp Require Import base option list strings gmap pretty.

(** ** Exceptions and the method monad *)

(** The exceptions the three classes can raise.  [Exception] is the plain
    [raise Exception(msg)] of the source; the others are raised by the
    interpreter, by NumPy or by the results object. *)
Inductive exn : Type :=
| Exception (msg : string)
| KeyError (key : option string)
| ValueError (msg : string)
| IndexError
| AttributeError (attr : string)
| IOError.

(** The exceptions of [BufferCurve.append], by the text they carry. *)
Definition not_prepared : exn := Exception "BufferCurve buffer must be prepared".
Definition overflow : exn := Exception "BufferCurve overflow".
Definition zero_size : exn :=
  ValueError "zero-size array to reduction operation maximum which has no identity".
(** The exception of [Crosshairs.mouseMoved]. *)
Definition not_known : exn := Exception "Mouse location not known".

(** A method over an object of type [S]: the outcome, and the object after
    the call, also when the call raised. *)
Definition py (S A : Type) : Type := S -> (exn + A) * S.

Definition ret {S A} (a : A) : py S A := fun s => (inr a, s).
Definition raise {S A} (e : exn) : py S A := fun s => (inl e, s).
Definition bind {S A B} (m : py S A) (k : A -> py S B) : py S B :=
  fun s => match m s with
           | (inl e, s') => (inl e, s')
           | (inr a, s') => k a s'
           end.
Definition get {S} : py S S := fun s => (inr s, s).
Definition modify {S} (f : S -> S) : py S unit := fun s => (inr tt, f s).
(** Outcome of an expression that cannot touch the object. *)
Definition lift {S A} (r : exn + A) : py S A := fun s => (r, s).

Notation "'let*' x ':=' m 'in' k" := (bind m (fun x => k))
  (at level 10, x name, m at level 100, k at level 200).
Notation "m ';;;' k" := (bind m (fun _ => k))
  (at level 100, k at level 200, right associativity).

Definition outcome {S A} (r : (exn + A) * S) : exn + A := fst r.
Definition after {S A} (r : (exn + A) * S) : S := snd r.
Definition raised {S A} (r : (exn + A) * S) : Prop :=
  exists e, outcome r = inl e.

(** ** NumPy arrays *)

Section NumPy.
(** [A]: the Python values handed to [append]; [V]: the cells of an array;
    [D]: the data types an array can be made with. *)
Context {A V D : Type}.

(** A two-dimensional array: its data type and its rows. *)
Record ndarray : Type := mk_ndarray {
  dtype : D;
  rows : list (list V)
}.

(** [np.empty((n, cols), dtype=dt)]: a fresh block whose cells hold
    whatever the allocator left there, [mem i j] for cell [(i, j)]. *)
Definition np_empty (mem : nat -> nat -> V) (n cols : nat) (dt : D) : ndarray :=
  {| dtype := dt;
     rows := map (fun i => map (mem i) (seq 0 cols)) (seq 0 n) |}.

(** The values of a Python list converted to cells of a data type, in
    order; [convert dt v] is the cell a value becomes ([None] stands for
    Python's [None]), or the exception of a value the type cannot take. *)
Fixpoint convert_all (convert : D -> option A -> exn + V) (dt : D)
    (values : list (option A)) : exn + list V :=
  match values with
  | [] => inr []
  | v :: vs =>
    match convert dt v with
    | inl e => inl e
    | inr c =>
      match convert_all convert dt vs with
      | inl e => inl e
      | inr cs => inr (c :: cs)
      end
    end
  end.

(** [np.max(a)] over all the cells of [a]; a zero-size array has no
    maximum and the reduction raises. *)
Definition np_max (vmax : V -> V -> V) (cells : list V) : exn + V :=
  match cells with
  | [] => inl zero_size
  | c :: cs => inr (fold_left vmax cs c)
  end.

(** [a[:n, lo:hi]], [a[:n, j]] and the cells of [a[:n, lo:]], on the rows
    of [a]. *)
Definition rows_to (n : nat) (a : list (list V)) : list (list V) := take n a.
Definition cols_to (hi : nat) (a : list (list V)) : list (list V) := map (take hi) a.
Definition cols_from (lo : nat) (a : list (list V)) : list (list V) := map (drop lo) a.
Definition col (nan : V) (j : nat) (a : list (list V)) : list V :=
  map (fun row => nth j row nan) a.
End NumPy.
Arguments ndarray V D : clear implicits.

(** ** The error-bar item *)

(** Keyword arguments of [ErrorBarItem.setOpts]: six sequences over [V] and
    the beam, of whatever type the caller computes it in. *)
Record ErrorBarOpts (V B : Type) : Type := {
  eb_x : list V;
  eb_y : list V;
  eb_top : list V;
  eb_bottom : list V;
  eb_left : list V;
  eb_right : list V;
  eb_beam : B
}.
Arguments eb_x {V B} _.
Arguments eb_y {V B} _.
Arguments eb_top {V B} _.
Arguments eb_bottom {V B} _.
Arguments eb_left {V B} _.
Arguments eb_right {V B} _.
Arguments eb_beam {V B} _.


(** ** BufferCurve *)

Module BufferCurve.
Section Defs.
Context {A V D : Type}.
(** The conversion of a Python value to a cell of a data type, the row a
    write leaves behind when it raised on a value (before the write, a
    part of it, or all the values converted so far: [torn lo row values]
    for the write of [values] from column [lo] on), a cell standing for one
    that is not there, and the greater of two cells. *)
Variable convert : D -> option A -> exn + V.
Variable torn : nat -> list V -> list (option A) -> list V.
Variable nan : V.
Variable vmax : V -> V -> V.

(** The attributes of a [BufferCurve].  [_errorBars] is [None] when the
    object has no such attribute, [Some None] for an error-bar item that
    never received [setOpts]; [_ptr] is [None] until [prepare] sets it;
    [plot_data] is the argument of the last [setData], an N x 2 array,
    kept as the rows it shows (it is a view of the buffer, of rows that are
    not written again); [data_updated] counts the emissions of the
    signal. *)
Record t : Type := mk {
  _errorBars : option (option (ErrorBarOpts V V));
  _buffer : option (ndarray V D);
  _ptr : option nat;
  plot_data : option (list (list V));
  data_updated : nat
}.

Definition hasattr_errorBars (self : t) : bool :=
  match _errorBars self with
  | Some _ => true
  | None => false
  end.

Definition __init__ (errors : bool) : t :=
  {| _errorBars := if errors then Some None else None;
     _buffer := None;
     _ptr := None;
     plot_data := None;
     data_updated := 0 |}.

Definition set_buffer (b : ndarray V D) (self : t) : t :=
  mk (_errorBars self) (Some b) (_ptr self) (plot_data self) (data_updated self).
Definition set_ptr (p : nat) (self : t) : t :=
  mk (_errorBars self) (_buffer self) (Some p) (plot_data self) (data_updated self).
Definition setData (d : list (list V)) (self : t) : t :=
  mk (_errorBars self) (_buffer self) (_ptr self) (Some d) (data_updated self).
Definition setOpts (o : ErrorBarOpts V V) (self : t) : t :=
  mk (Some (Some o)) (_buffer self) (_ptr self) (plot_data self) (data_updated self).
Definition emit (self : t) : t :=
  mk (_errorBars self) (_buffer self) (_ptr self) (plot_data self)
     (S (data_updated self)).

(** [prepare(size, dtype)]; [np.float32] is the data type when the caller
    gives none. *)
Definition prepare (size : nat) (dtype : D) (mem : nat -> nat -> V) : py t unit :=
  let* self := get in
  (if hasattr_errorBars self
   then modify (set_buffer (np_empty mem size 4 dtype))
   else modify (set_buffer (np_empty mem size 2 dtype))) ;;;
  modify (set_ptr 0).

(** Reading [self._buffer] and [self._ptr]. *)
Definition the_buffer : py t (ndarray V D) :=
  let* self := get in
  match _buffer self with
  | Some b => ret b
  | None => raise (AttributeError "_buffer")
  end.
Definition the_ptr : py t nat :=
  let* self := get in
  match _ptr self with
  | Some p => ret p
  | None => raise (AttributeError "_ptr")
  end.

(** [self._buffer[i, lo:...] = values]: an index past the last row raises;
    the values are converted to the data type of the array, and a value it
    cannot take raises, leaving the row torn; else [f] puts the cells into
    the row.  The array is written in place: it keeps its data type. *)
Definition setitem_row (i lo : nat) (values : list (option A))
    (f : list V -> list V -> list V) : py t unit :=
  let* b := the_buffer in
  match rows b !! i with
  | None => raise IndexError
  | Some row =>
    match convert_all convert (dtype b) values with
    | inr cells =>
      modify (set_buffer (mk_ndarray (dtype b) (<[i := f cells row]> (rows b))))
    | inl e =>
      modify (set_buffer (mk_ndarray (dtype b) (<[i := torn lo row values]> (rows b)))) ;;;
      raise e
    end
  end.

Definition append (x y : A) (xError yError : option A) : py t unit :=
  let* self := get in
  match _buffer self with
  | None => raise not_prepared
  | Some buffer =>
    let* ptr := the_ptr in
    if length (rows buffer) <=? ptr then raise overflow else
    (* Set x-y data *)
    setitem_row ptr 0 [Some x; Some y] (fun cells row => cells ++ drop 2 row) ;;;
    let* b := the_buffer in
    modify (setData (cols_to 2 (rows_to ptr (rows b)))) ;;;
    (* Set error bars if enabled at construction *)
    (if hasattr_errorBars self then
       setitem_row ptr 2 [xError; yError] (fun cells row => take 2 row ++ cells) ;;;
       let* b := the_buffer in
       let* beam := lift (np_max vmax (concat (cols_from 2 (rows_to ptr (rows b))))) in
       modify (setOpts {| eb_x := col nan 0 (rows_to ptr (rows b));
                          eb_y := col nan 1 (rows_to ptr (rows b));
                          eb_top := col nan 3 (rows_to ptr (rows b));
                          eb_bottom := col nan 3 (rows_to ptr (rows b));
                          eb_left := col nan 2 (rows_to ptr (rows b));
                          eb_right := col nan 2 (rows_to ptr (rows b));
                          eb_beam := beam |})
     else ret tt) ;;;
    let* ptr := the_ptr in
    modify (set_ptr (ptr + 1)) ;;;
    modify emit
  end.

(** A producer streaming records into the curve; the first exception ends
    the run, as it would end the producer's loop. *)
Fixpoint appends (rs : list (A * A * option A * option A)) : py t unit :=
  match rs with
  | [] => ret tt
  | (x, y, xe, ye) :: rs' => append x y xe ye ;;; appends rs'
  end.

(** A caller that catches the exception and goes on: the outcomes of the
    calls, in order, and the curve at the end. *)
Fixpoint attempts (rs : list (A * A * option A * option A)) (self : t)
    : list (exn + unit) * t :=
  match rs with
  | [] => ([], self)
  | (x, y, xe, ye) :: rs' =>
    let r := append x y xe ye self in
    let q := attempts rs' (after r) in
    (outcome r :: fst q, snd q)
  end.

(** The (x, y) part and the error part of the record of an [append] call,
    as cells of a data type. *)
Definition xy (dt : D) (r : A * A * option A * option A) : exn + list V :=
  match r with
  | (x, y, _, _) => convert_all convert dt [Some x; Some y]
  end.
Definition errs (dt : D) (r : A * A * option A * option A) : exn + list V :=
  match r with
  | (_, _, xe, ye) => convert_all convert dt [xe; ye]
  end.

(** The records [rs] go into an array of data type [dt] as the rows
    [stored]. *)
Definition stored_as (dt : D) (rs : list (A * A * option A * option A))
    (stored : list (list V)) : Prop :=
  Forall2 (fun r row => xy dt r = inr row) rs stored.

(** The curve right after [prepare] on a curve [st0] created without
    error bars, with [b0] the block [np.empty] handed out, and the curve
    after records were then appended to it that the block holds as the
    rows [stored]. *)
Definition plain_state (st0 : t) (b0 : ndarray V D) (stored : list (list V)) : t :=
  mk None
     (Some (mk_ndarray (dtype b0) (stored ++ drop (length stored) (rows b0))))
     (Some (length stored))
     (match stored with
      | [] => plot_data st0
      | _ :: _ => Some (removelast stored)
      end)
     (data_updated st0 + length stored).
End Defs.
Arguments t V D : clear implicits.
End BufferCurve.

(** ** The results object *)

(** Modelled from the spec: the class [Results] of [automate.experiment] is
    imported by [qtgraph.py] and is not among the sources.  The spec gives
    it a snapshot, a mapping from column name to an ordered numeric
    sequence, and a reload operation that refreshes the snapshot from the
    backing file and may fail with an I/O error.  [file n] is what the
    backing file yields at the [n]-th reload; [reloads] counts the calls. *)
Module Results.
Section Defs.
Context {V : Type}.

Record t : Type := mk {
  data : gmap string (list V);
  file : nat -> option (gmap string (list V));
  reloads : nat
}.

Definition reload : py t unit :=
  fun self =>
    match file self (reloads self) with
    | Some d => (inr tt, mk d (file self) (S (reloads self)))
    | None => (inl IOError, mk (data self) (file self) (S (reloads self)))
    end.

(** [data[key]]. *)
Definition getitem (d : gmap string (list V)) (key : option string) : exn + list V :=
  match key with
  | Some name =>
    match d !! name with
    | Some c => inr c
    | None => inl (KeyError key)
    end
  | None => inl (KeyError None)
  end.

End Defs.
Arguments t V : clear implicits.
End Results.

(** ** ResultsCurve *)

Module ResultsCurve.
Section Defs.
Context {V : Type}.

(** The truth value of [b > a] for two columns of the snapshot, as the
    column type of [Results] defines it; it raises for a type whose
    comparison has no truth value. *)
Variable col_gt : list V -> list V -> exn + bool.

(** The builtin [max(a, b)] of two arguments: [b] when [b > a] holds,
    else [a]. *)
Definition py_max (a b : list V) : exn + list V :=
  match col_gt b a with
  | inl e => inl e
  | inr true => inr b
  | inr false => inr a
  end.

(** The attributes of a [ResultsCurve].  [xerr] and [yerr] hold the
    constructor's arguments ([None] for Python's [None]); they are read
    only behind the [hasattr] test.  [plot_data] is the pair of sequences
    of the last [setData]. *)
Record t : Type := mk {
  results : Results.t V;
  x : string;
  y : string;
  force_reload : bool;
  _errorBars : option (option (ErrorBarOpts V (list V)));
  xerr : option string;
  yerr : option string;
  plot_data : option (list V * list V)
}.

Definition hasattr_errorBars (self : t) : bool :=
  match _errorBars self with
  | Some _ => true
  | None => false
  end.

(** Truth value of a column name: [None] and the empty string are false. *)
Definition truthy (name : option string) : bool :=
  match name with
  | Some EmptyString => false
  | Some _ => true
  | None => false
  end.

Definition __init__ (results : Results.t V) (x y : string)
    (xerr yerr : option string) (force_reload : bool) : t :=
  if truthy xerr || truthy yerr
  then mk results x y force_reload (Some None) xerr yerr None
  else mk results x y force_reload None None None None.

Definition setData (d : list V * list V) (self : t) : t :=
  mk (results self) (x self) (y self) (force_reload self) (_errorBars self)
     (xerr self) (yerr self) (Some d).
Definition setOpts (o : ErrorBarOpts V (list V)) (self : t) : t :=
  mk (results self) (x self) (y self) (force_reload self) (Some (Some o))
     (xerr self) (yerr self) (plot_data self).

(** [self.results.reload()]. *)
Definition results_reload : py t unit :=
  fun self =>
    let r := Results.reload (results self) in
    (fst r, mk (snd r) (x self) (y self) (force_reload self) (_errorBars self)
               (xerr self) (yerr self) (plot_data self)).

Definition update : py t unit :=
  let* self := get in
  (if force_reload self then results_reload else ret tt) ;;;
  let* self := get in
  let data := Results.data (results self) in
  (* Set x-y data *)
  let* dx := lift (Results.getitem data (Some (x self))) in
  let* dy := lift (Results.getitem data (Some (y self))) in
  modify (setData (dx, dy)) ;;;
  (* Set error bars if enabled at construction *)
  if hasattr_errorBars self then
    let* ex := lift (Results.getitem data (Some (x self))) in
    let* ey := lift (Results.getitem data (Some (y self))) in
    let* top := lift (Results.getitem data (yerr self)) in
    let* bottom := lift (Results.getitem data (yerr self)) in
    let* left := lift (Results.getitem data (xerr self)) in
    let* right := lift (Results.getitem data (yerr self)) in
    let* mx := lift (Results.getitem data (xerr self)) in
    let* my := lift (Results.getitem data (yerr self)) in
    let* beam := lift (py_max mx my) in
    modify (setOpts {| eb_x := ex; eb_y := ey;
                       eb_top := top; eb_bottom := bottom;
                       eb_left := left; eb_right := right;
                       eb_beam := beam |})
  else ret tt.

(** [n] calls of [update] by a caller that goes on after an exception. *)
Fixpoint updates (n : nat) (self : t) : t :=
  match n with
  | 0 => self
  | S n' => updates n' (after (update self))
  end.
End Defs.
Arguments t V : clear implicits.
End ResultsCurve.

(** ** Crosshairs *)

Module Crosshairs.
Section Defs.
Context {R : Type}.

(** A guide line: where [setPos] last put it ([None] for the place the
    constructor left it at) and whether it is shown. *)
Record InfiniteLine : Type := {
  pos : option R;
  visible : bool
}.

(** The attributes of a [Crosshairs].  [mapSceneToView] is the view
    transform of [self.plot.vb] at the time of the call; [coordinates] is
    the log of the emissions of the signal, oldest first. *)
Record t : Type := mk {
  vertical : InfiniteLine;
  horizontal : InfiniteLine;
  position : option (R * R);
  mapSceneToView : R * R -> R * R;
  coordinates : list (R * R)
}.

Definition __init__ (plot : R * R -> R * R) : t :=
  {| vertical := {| pos := None; visible := true |};
     horizontal := {| pos := None; visible := true |};
     position := None;
     mapSceneToView := plot;
     coordinates := [] |}.

Definition set_visible (b : bool) (l : InfiniteLine) : InfiniteLine :=
  {| pos := pos l; visible := b |}.
Definition setPos (v : R) (l : InfiniteLine) : InfiniteLine :=
  {| pos := Some v; visible := visible l |}.

Definition hide : py t unit :=
  modify (fun self => mk (set_visible false (vertical self)) (horizontal self)
                         (position self) (mapSceneToView self) (coordinates self)) ;;;
  modify (fun self => mk (vertical self) (set_visible false (horizontal self))
                         (position self) (mapSceneToView self) (coordinates self)).

Definition show : py t unit :=
  modify (fun self => mk (set_visible true (vertical self)) (horizontal self)
                         (position self) (mapSceneToView self) (coordinates self)) ;;;
  modify (fun self => mk (vertical self) (set_visible true (horizontal self))
                         (position self) (mapSceneToView self) (coordinates self)).

Definition emit (c : R * R) (self : t) : t :=
  mk (vertical self) (horizontal self) (position self) (mapSceneToView self)
     (coordinates self ++ [c]).
Definition vertical_setPos (v : R) (self : t) : t :=
  mk (setPos v (vertical self)) (horizontal self) (position self)
     (mapSceneToView self) (coordinates self).
Definition horizontal_setPos (v : R) (self : t) : t :=
  mk (vertical self) (setPos v (horizontal self)) (position self)
     (mapSceneToView self) (coordinates self).
Definition set_position (p : R * R) (self : t) : t :=
  mk (vertical self) (horizontal self) (Some p) (mapSceneToView self)
     (coordinates self).

Definition update : py t unit :=
  let* self := get in
  match position self with
  | Some p =>
    let mousePoint := mapSceneToView self p in
    modify (emit (fst mousePoint, snd mousePoint)) ;;;
    modify (vertical_setPos (fst mousePoint)) ;;;
    modify (horizontal_setPos (snd mousePoint))
  | None => ret tt
  end.

(** [event] is the argument tuple the signal proxy forwards, or [None];
    [event[0]] of an empty tuple raises. *)
Definition mouseMoved (event : option (list (R * R))) : py t unit :=
  match event with
  | Some ev =>
    match ev with
    | p :: _ => modify (set_position p) ;;; update
    | [] => raise IndexError
    end
  | None => raise not_known
  end.
End Defs.
Arguments t R : clear implicits.
Arguments InfiniteLine R : clear implicits.
End Crosshairs.

(** ** Concrete inputs *)

(** Inputs the properties below are run on.  Numbers are integers here,
    as Python values and as cells; there is one data type, which takes
    every number as it is and [None] as [0], the stand-in for [nan]; [0] is
    also what fresh memory holds, and [Z.max] the maximum of two cells. *)
Module Demo.
Inductive data_type : Type := float32.

Definition convert (dt : data_type) (v : option Z) : exn + Z :=
  match v with
  | Some z => inr z
  | None => inr 0%Z
  end.

(** No write that raises: this data type takes every value. *)
Definition torn (lo : nat) (row : list Z) (values : list (option Z)) : list Z := row.

Definition mem (i j : nat) : Z := 0%Z.

(** [BufferCurve()], then [prepare(2)]. *)
Definition plain_curve : BufferCurve.t Z data_type :=
  after (BufferCurve.prepare 2 float32 mem (BufferCurve.__init__ false)).

(** [BufferCurve(errors=True)], then [prepare(2)]. *)
Definition error_curve : BufferCurve.t Z data_type :=
  after (BufferCurve.prepare 2 float32 mem (BufferCurve.__init__ true)).

Definition records : list (Z * Z * option Z * option Z) :=
  [(1, 2, None, None); (3, 4, None, None)]%Z.

(** Columns compared as lists of one number. *)
Definition col_gt (b a : list Z) : exn + bool :=
  match b, a with
  | [v], [w] => inr (w <? v)%Z
  | _, _ => inl (ValueError "The truth value of an array with more than one element is ambiguous")
  end.

Definition snapshot : gmap string (list Z) :=
  <["x" := [1%Z]]> (<["y" := [2%Z]]> (<["dx" := [3%Z]]> (<["dy" := [4%Z]]> ∅))).

(** The same without the y-error column. *)
Definition snapshot_no_dy : gmap string (list Z) :=
  <["x" := [1%Z]]> (<["y" := [2%Z]]> (<["dx" := [3%Z]]> ∅)).



Definition results_of (d : gmap string (list Z)) : Results.t Z :=
  Results.mk d (fun _ => Some d) 0.

(** [ResultsCurve(results, 'x', 'y', xerr='dx', yerr='dy')] over each
    snapshot, and with [force_reload=True]. *)
Definition curve : ResultsCurve.t Z :=
  ResultsCurve.__init__ (results_of snapshot) "x" "y" (Some "dx") (Some "dy") false.
Definition curve_no_dy : ResultsCurve.t Z :=
  ResultsCurve.__init__ (results_of snapshot_no_dy) "x" "y" (Some "dx") (Some "dy") false.
Definition curve_reloading : ResultsCurve.t Z :=
  ResultsCurve.__init__ (results_of snapshot) "x" "y" (Some "dx") (Some "dy") true.

(** Crosshairs on a plot whose view transform is the identity, before any
    pointer event and with the pointer last seen at scene position
    (5.0, 7.0). *)
Definition crosshairs : Crosshairs.t float :=
  Crosshairs.__init__ (fun q => q).
Definition crosshairs_at_5_7 : Crosshairs.t float :=
  Crosshairs.mk (Crosshairs.vertical crosshairs) (Crosshairs.horizontal crosshairs)
    (Some (5.0%float, 7.0%float)) (fun q => q) [].
End Demo.

(** ** The BN675 waveform generator, [bn675.py] *)

Module BN675.

(** The exceptions met in [wait_for_trigger]: the one of the VISA
    transport, Python's [TimeoutError], and any other by its name. *)
Inductive error : Type :=
| VisaIOError
| TimeoutError (msg : string)
| OtherError (name : string).

Definition timeout_expired : error :=
  TimeoutError "Timeout expired while waiting for the WAS8104A to finish the triggering.".

(** *** Channel *)

(** The attributes [Channel.__init__] sets, apart from the instrument,
    which the channels of one generator share. *)
Record Channel : Type := mkChannel {
  number : Z;
  _elem : option Z;
  _elemprefix : option string
}.

Definition Channel__init__ (number : Z) : Channel :=
  {| number := number; _elem := None; _elemprefix := None |}.

(** *** BN675_AWG *)

(** [range(n)]. *)
Definition range (n : Z) : list Z := map Z.of_nat (seq 0 (Z.to_nat n)).

(** The loop of [BN675_AWG.__init__]: for [i] in [range(num_chan)] the
    attribute [ch<i+1>] is set to the channel of number [i + 1].  The
    attributes are kept by name. *)
Definition init_channels (num_chan : Z) : gmap string Channel :=
  foldl (fun attrs i => <["ch" +:+ pretty (i + 1)%Z := Channel__init__ (i + 1)]> attrs)
        ∅ (range num_chan).

Section WaitDefs.
(** Times, as [time()] gives them and [timeout] is given: the difference,
    the test [a > b] and the test [a != 0]. *)
Context {T : Type}.
Variable minus : T -> T -> T.
Variable gt : T -> T -> bool.
Variable nonzero : T -> bool.

(** The world [wait_for_trigger] runs in: what the [n]-th read of the
    property [run_state] gives, a number or an exception, and what the
    [n]-th call of [time()] gives. *)
Variable run_state_at : nat -> error + Z.
Variable time_at : nat -> T.

(** How many reads of [run_state] and calls of [time()] were made. *)
Record World : Type := mkWorld {
  polls : nat;
  clock : nat
}.

(** The argument [should_stop]: a function, as the default [lambda: False]
    is, [None], or a boolean; and its truth value, which is what
    [if should_stop:] tests. *)
Inductive stop_arg : Type :=
| Function (f : World -> bool)
| PyNone
| PyBool (b : bool).

Definition truth (a : stop_arg) : bool :=
  match a with
  | Function _ => true
  | PyNone => false
  | PyBool b => b
  end.

(** The [while True] loop; [None] when [fuel] rounds did not end it. *)
Fixpoint wait_loop (fuel : nat) (t0 timeout : T) (should_stop : stop_arg)
    (w : World) : option ((error + unit) * World) :=
  match fuel with
  | 0 => None
  | S fuel' =>
    (* try: ready = self.run_state / except VisaIOError: ready = -1 *)
    let ready :=
      match run_state_at (polls w) with
      | inl VisaIOError => inr (-1)%Z
      | other => other
      end in
    let w := mkWorld (S (polls w)) (clock w) in
    match ready with
    | inl e => Some (inl e, w)
    | inr ready =>
      if negb (ready =? 0)%Z then Some (inr tt, w)
      else
        (* timeout != 0 and time() - t0 > timeout *)
        let expired :=
          if nonzero timeout then gt (minus (time_at (clock w)) t0) timeout
          else false in
        let w := if nonzero timeout then mkWorld (polls w) (S (clock w)) else w in
        if expired then Some (inl timeout_expired, w)
        else if truth should_stop then Some (inr tt, w)
        else wait_loop fuel' t0 timeout should_stop w
    end
  end.

Definition wait_for_trigger (fuel : nat) (timeout : T) (should_stop : stop_arg)
    (w : World) : option ((error + unit) * World) :=
  let t0 := time_at (clock w) in
  wait_loop fuel t0 timeout should_stop (mkWorld (polls w) (S (clock w))).

(** The world [k] rounds of the loop later, when each went on to the next:
    one read of [run_state] a round, and one call of [time()] a round when
    there is a timeout. *)
Definition rounds_later (timeout : T) (k : nat) (w : World) : World :=
  mkWorld (polls w + k) (clock w + if nonzero timeout then k else 0).
End WaitDefs.
End BN675.

(** ** Notions the further properties are stated with *)

(** The cursor of a prepared curve is within the block: between 0 and the
    number of rows, both included. *)
Definition cursor_in_bounds {V D} (st : BufferCurve.t V D) : Prop :=
  exists b p, BufferCurve._buffer st = Some b /\ BufferCurve._ptr st = Some p /\
              p <= length (rows b).

(** The scene position a pointer event carries, the first entry of its
    argument tuple; a null event and an empty tuple carry none. *)
Definition event_point {R} (event : option (list (R * R))) : option (R * R) :=
  match event with
  | Some (p :: _) => Some p
  | _ => None
  end.

(** How [mouseMoved] ends on an event. *)
Definition event_outcome {R} (event : option (list (R * R))) : exn + unit :=
  match event with
  | Some (_ :: _) => inr tt
  | Some [] => inl IndexError
  | None => inl not_known
  end.

(** Pointer events delivered one after the other to [mouseMoved], by a
    caller that goes on after an exception: the outcomes, in order, and the
    crosshairs at the end. *)
Fixpoint mouse_events {R} (events : list (option (list (R * R))))
    (self : Crosshairs.t R) : list (exn + unit) * Crosshairs.t R :=
  match events with
  | [] => ([], self)
  | event :: events' =>
    let r := Crosshairs.mouseMoved event self in
    let q := mouse_events events' (after r) in
    (outcome r :: fst q, snd q)
  end.

(** ** Further concrete inputs *)

Module Cases.
(** A results object whose file cannot be read, and a curve over it that
    reloads on every update. *)
Definition unreadable : Results.t Z :=
  Results.mk Demo.snapshot (fun _ => None) 0.
Definition curve_unreadable : ResultsCurve.t Z :=
  ResultsCurve.__init__ unreadable "x" "y" (Some "dx") (Some "dy") true.

(** Times in whole seconds: the [n]-th call of [time()] gives [n]. *)
Definition time_at (n : nat) : Z := Z.of_nat n.
Definition nonzero (t : Z) : bool := negb (t =? 0)%Z.

(** A generator whose state reads 0 twice and 2 from then on, and one
    whose state always reads 0. *)
Definition starts_at_2 (n : nat) : BN675.error + Z :=
  if (n <? 2)%nat then inr 0%Z else inr 2%Z.
Definition stopped (n : nat) : BN675.error + Z := inr 0%Z.

Definition world : BN675.World := BN675.mkWorld 0 0.

(** One record, and one more than [Demo.records]. *)
Definition one_record : list (Z * Z * option Z * option Z) :=
  [(1, 2, None, None)]%Z.
Definition third_record : list (Z * Z * option Z * option Z) :=
  [(5, 6, None, None)]%Z.
Definition first_with_errors : list (Z * Z * option Z * option Z) :=
  [(1, 2, Some 3, Some 4)]%Z.

(** Python values that are numbers or text, and the conversion of
    [np.float32], which takes a number and raises on text that is not one
    (here: on any text).  The write raises before the first cell is set when
    the first value is text. *)
Inductive value : Type :=
| Num (z : Z)
| Str (s : string).
Definition convert_value (dt : Demo.data_type) (v : option value) : exn + Z :=
  match v with
  | Some (Num z) => inr z
  | Some (Str s) => inl (ValueError "could not convert string to float")
  | None => inr 0%Z
  end.
Definition untouched (lo : nat) (row : list Z) (values : list (option value))
    : list Z := row.
End Cases.

(** * Properties *)

(** ** BufferCurve *)

Section BufferCurveFacts.
Context {A V D : Type}.
Variable convert : D -> option A -> exn + V.
Variable torn : nat -> list V -> list (option A) -> list V.
Variable nan : V.
Variable vmax : V -> V -> V.

Import BufferCurve.

Abbreviation append := (BufferCurve.append convert torn nan vmax).
Abbreviation appends := (BufferCurve.appends convert torn nan vmax).
Abbreviation attempts := (BufferCurve.attempts convert torn nan vmax).
Abbreviation xy := (BufferCurve.xy convert).
Abbreviation errs := (BufferCurve.errs convert).
Abbreviation stored_as := (BufferCurve.stored_as convert).

Ltac run_append :=
  unfold BufferCurve.append, bind, get, the_ptr, the_buffer, setitem_row,
    modify, ret, raise, bind, get, hasattr_errorBars, lift, outcome, after;
  cbn [_buffer _ptr _errorBars fst snd].

Ltac step := cbn -[take drop np_max convert_all].

Lemma convert_all_length dt values cells :
  convert_all convert dt values = inr cells -> length cells = length values.
Proof.
  revert cells. induction values as [|v vs IH]; intros cells.
  - cbn. now intros [= <-].
  - cbn. destruct (convert dt v) as [e|c]; [discriminate|].
    destruct (convert_all convert dt vs) as [e|cs]; [discriminate|].
    intros [= <-]. cbn. now rewrite (IH cs).
Qed.

Lemma append_unprepared (st : t V D) x y xe ye :
  _buffer st = None -> append x y xe ye st = (inl not_prepared, st).
Proof.
  intros Hb. unfold BufferCurve.append, bind, get. cbn. now rewrite Hb.
Qed.

Lemma append_overflow (st : t V D) b p x y xe ye :
  _buffer st = Some b -> _ptr st = Some p -> length (rows b) <= p ->
  append x y xe ye st = (inl overflow, st).
Proof.
  intros Hb Hp Hle. unfold BufferCurve.append, bind, get, the_ptr. cbn.
  rewrite Hb. unfold bind, get, ret. cbn. rewrite Hp. cbn.
  apply Nat.leb_le in Hle. now rewrite Hle.
Qed.

(** Without error bars an append at a free row, of values the data type
    takes, writes the row, publishes the rows before it, moves the cursor
    and emits the signal. *)
Lemma append_plain (st : t V D) b p row cells x y xe ye :
  _errorBars st = None -> _buffer st = Some b -> _ptr st = Some p ->
  rows b !! p = Some row ->
  convert_all convert (dtype b) [Some x; Some y] = inr cells ->
  append x y xe ye st =
    (inr tt,
     mk None (Some (mk_ndarray (dtype b) (<[p := cells ++ drop 2 row]> (rows b))))
        (Some (p + 1)) (Some (cols_to 2 (rows_to p (rows b))))
        (S (data_updated st))).
Proof.
  intros He Hb Hp Hrow Hconv.
  assert (Hlt : p < length (rows b)) by (apply lookup_lt_is_Some; eauto).
  destruct st as [e bf pt pd du]; cbn in He, Hb, Hp; subst.
  run_append. apply Nat.leb_gt in Hlt. rewrite Hlt. step. rewrite Hrow, Hconv.
  step. unfold rows_to. rewrite take_insert_ge by lia. reflexivity.
Qed.

(** With error bars and the cursor on row 0, the visible slice is empty,
    the maximum over its error cells does not exist and the call raises
    after the row was written and the empty series published. *)
Lemma append_errors_at_0 (st : t V D) o b row cells ecells x y xe ye :
  _errorBars st = Some o -> _buffer st = Some b -> _ptr st = Some 0 ->
  rows b !! 0 = Some row ->
  convert_all convert (dtype b) [Some x; Some y] = inr cells ->
  convert_all convert (dtype b) [xe; ye] = inr ecells ->
  append x y xe ye st =
    (inl zero_size,
     mk (Some o)
        (Some (mk_ndarray (dtype b)
                 (<[0 := take 2 (cells ++ drop 2 row) ++ ecells]> (rows b))))
        (Some 0) (Some []) (data_updated st)).
Proof.
  intros He Hb Hp Hrow Hconv Heconv.
  assert (Hlt : 0 < length (rows b)) by (apply lookup_lt_is_Some; eauto).
  destruct st as [e bf pt pd du]; cbn in He, Hb, Hp; subst.
  run_append. apply Nat.leb_gt in Hlt. rewrite Hlt. step. rewrite Hrow, Hconv.
  step. rewrite list_lookup_insert_eq by (apply Nat.leb_gt; exact Hlt).
  rewrite Heconv. step. rewrite list_insert_insert_eq. reflexivity.
Qed.

(** What one call does to the block and the cursor, however it ends: the
    array keeps its data type and its number of rows, no row below the
    cursor is written, the curve keeps its error-bar item or the lack of
    it, and the cursor moves, by one row, exactly when the call returns. *)
Lemma append_frame (st : t V D) b p x y xe ye :
  _buffer st = Some b -> _ptr st = Some p ->
  exists b',
    _buffer (after (append x y xe ye st)) = Some b' /\
    dtype b' = dtype b /\
    length (rows b') = length (rows b) /\
    rows_to p (rows b') = rows_to p (rows b) /\
    hasattr_errorBars (after (append x y xe ye st)) = hasattr_errorBars st /\
    match outcome (append x y xe ye st) with
    | inr _ => _ptr (after (append x y xe ye st)) = Some (p + 1) /\
               p < length (rows b)
    | inl _ => _ptr (after (append x y xe ye st)) = Some p
    end.
Proof.
  intros Hb Hp. destruct st as [e bf pt pd du]; cbn in Hb, Hp; subst.
  run_append.
  destruct (length (rows b) <=? p) eqn:Hlt; [cbn; eauto 10|].
  apply Nat.leb_gt in Hlt.
  destruct (lookup_lt_is_Some_2 (rows b) p Hlt) as [row Hrow].
  step. rewrite Hrow.
  destruct (convert_all convert (dtype b) [Some x; Some y]) as [err|cells]; step.
  { eexists. split; [reflexivity|]. cbn [dtype rows]. unfold rows_to.
    rewrite length_insert, take_insert_ge by lia. auto. }
  destruct e as [o|]; step.
  - rewrite list_lookup_insert_eq by exact Hlt.
    destruct (convert_all convert (dtype b) [xe; ye]) as [err|ecells]; step.
    { eexists. split; [reflexivity|]. cbn [dtype rows]. unfold rows_to.
      rewrite !length_insert, !take_insert_ge by lia. auto. }
    destruct (np_max vmax _) as [err|beam]; step;
      eexists; (split; [reflexivity|]); cbn [dtype rows]; unfold rows_to;
      rewrite !length_insert, !take_insert_ge by lia; auto 10.
  - eexists. split; [reflexivity|]. cbn [dtype rows]. unfold rows_to.
    rewrite length_insert, take_insert_ge by lia. auto 10.
Qed.

(** Every way a call can end: it returns after one emission, or it raises
    without one, with the cursor and the error-bar item as they were. *)
Lemma append_outcomes (st : t V D) x y xe ye :
  match outcome (append x y xe ye st) with
  | inr _ => data_updated (after (append x y xe ye st)) = S (data_updated st)
  | inl e =>
    data_updated (after (append x y xe ye st)) = data_updated st /\
    _ptr (after (append x y xe ye st)) = _ptr st /\
    _errorBars (after (append x y xe ye st)) = _errorBars st
  end.
Proof.
  destruct st as [e [bf|] [pt|] pd du]; try (cbn; auto; fail).
  run_append.
  destruct (length (rows bf) <=? pt) eqn:Hlt; [cbn; auto|].
  apply Nat.leb_gt in Hlt.
  destruct (lookup_lt_is_Some_2 (rows bf) pt Hlt) as [row Hrow].
  step. rewrite Hrow.
  destruct (convert_all convert (dtype bf) [Some x; Some y]) as [err|cells]; step;
    [auto|].
  destruct e as [o|]; step; [|reflexivity].
  rewrite list_lookup_insert_eq by exact Hlt.
  destruct (convert_all convert (dtype bf) [xe; ye]) as [err|ecells]; step; [auto|].
  destruct (np_max vmax _) as [err|beam]; step; auto.
Qed.

(** With error bars and the cursor on row 0 no call returns, whatever the
    values. *)
Lemma append_errors_at_0_raised (st : t V D) o x y xe ye :
  _errorBars st = Some o -> _ptr st = Some 0 ->
  raised (append x y xe ye st).
Proof.
  intros He Hp. unfold raised.
  destruct st as [e [bf|] pt pd du]; cbn in He, Hp; subst; [|cbn; eauto].
  run_append.
  destruct (length (rows bf) <=? 0) eqn:Hlt; [cbn; eauto|].
  apply Nat.leb_gt in Hlt.
  destruct (lookup_lt_is_Some_2 (rows bf) 0 Hlt) as [row Hrow].
  step. rewrite Hrow.
  destruct (convert_all convert (dtype bf) [Some x; Some y]) as [err|cells]; step;
    [eauto|].
  rewrite list_lookup_insert_eq by exact Hlt.
  destruct (convert_all convert (dtype bf) [xe; ye]) as [err|ecells]; step; eauto.
Qed.

(** The series handed to [setData] is a view of the rows below the
    cursor; no call writes a row below the cursor, so the view shows later
    what it showed when it was handed over. *)
Lemma append_keeps_rows_below_cursor (st : t V D) b p x y xe ye :
  _buffer st = Some b -> _ptr st = Some p ->
  exists b', _buffer (after (append x y xe ye st)) = Some b' /\
             rows_to p (rows b') = rows_to p (rows b).
Proof.
  intros Hb Hp.
  destruct (append_frame st b p x y xe ye Hb Hp) as (b' & H1 & _ & _ & H2 & _).
  eauto.
Qed.

(** *** The block handed out by [np.empty] *)

Lemma np_empty_length (mem : nat -> nat -> V) n cols (dt : D) :
  length (rows (np_empty mem n cols dt)) = n.
Proof. cbn. now rewrite length_map, length_seq. Qed.

Lemma np_empty_width (mem : nat -> nat -> V) n cols (dt : D) :
  Forall (fun row => length row = cols) (rows (np_empty mem n cols dt)).
Proof.
  cbn. apply Forall_map, Forall_forall. intros i _. cbn.
  now rewrite length_map, length_seq.
Qed.

Lemma prepare_plain (st0 : t V D) size dt mem :
  _errorBars st0 = None ->
  prepare size dt mem st0 =
    (inr tt, mk None (Some (np_empty mem size 2 dt)) (Some 0)
                (plot_data st0) (data_updated st0)).
Proof.
  intros He. destruct st0 as [e bf pt pd du]; cbn in He; subst. reflexivity.
Qed.

Lemma prepare_errors (st0 : t V D) o size dt mem :
  _errorBars st0 = Some o ->
  prepare size dt mem st0 =
    (inr tt, mk (Some o) (Some (np_empty mem size 4 dt)) (Some 0)
                (plot_data st0) (data_updated st0)).
Proof.
  intros He. destruct st0 as [e bf pt pd du]; cbn in He; subst. reflexivity.
Qed.

(** *** Runs of appends *)

Lemma appends_snoc rs r (st : t V D) :
  appends (rs ++ [r]) st =
    match appends rs st with
    | (inl e, st') => (inl e, st')
    | (inr _, st') => append (r.1.1.1) (r.1.1.2) (r.1.2) (r.2) st'
    end.
Proof.
  revert st. induction rs as [|[[[x y] xe] ye] rs IH]; intros st.
  - destruct r as [[[x y] xe] ye].
    cbn [BufferCurve.appends app fst snd]. unfold bind, ret.
    destruct (append x y xe ye st) as [[e|[]] st']; reflexivity.
  - cbn [BufferCurve.appends app]. unfold bind.
    destruct (append x y xe ye st) as [[e|[]] st']; [reflexivity|].
    apply IH.
Qed.

Lemma stored_as_width dt rs stored :
  stored_as dt rs stored -> Forall (fun row => length row = 2) stored.
Proof.
  unfold BufferCurve.stored_as. induction 1 as [|[[[x y] xe] ye] row rs stored Hr _ IH].
  - constructor.
  - constructor; [|exact IH]. cbn [BufferCurve.xy] in Hr.
    now rewrite (convert_all_length _ _ _ Hr).
Qed.

Lemma cols_to_2_stored (stored : list (list V)) :
  Forall (fun row => length row = 2) stored -> cols_to 2 stored = stored.
Proof.
  unfold cols_to. induction 1 as [|row stored Hrow _ IH]; [reflexivity|].
  cbn. rewrite IH. f_equal. apply take_ge. lia.
Qed.

(** On a curve without error bars, as many appends as the block has rows,
    of values the data type takes, all return, and leave the curve in
    [plain_state]. *)
Lemma appends_plain (st0 : t V D) b0 rs : forall stored,
  Forall (fun row => length row = 2) (rows b0) ->
  stored_as (dtype b0) rs stored ->
  length rs <= length (rows b0) ->
  appends rs (mk None (Some b0) (Some 0) (plot_data st0) (data_updated st0))
  = (inr tt, plain_state st0 b0 stored).
Proof.
  induction rs as [|r rs IH] using rev_ind; intros stored Hw Hst Hlen.
  - apply Forall2_nil_inv_l in Hst. subst stored.
    cbn. unfold ret, plain_state. cbn. destruct b0. now rewrite Nat.add_0_r.
  - apply Forall2_app_inv_l in Hst as (stored' & last & Hst & Hlast & ->).
    apply Forall2_cons_inv_l in Hlast as (cells & tl & Hcells & Htl & ->).
    apply Forall2_nil_inv_l in Htl. subst tl.
    pose proof (Forall2_length _ _ _ Hst) as Hlen'.
    pose proof (stored_as_width _ _ _ Hst) as Hw'.
    rewrite length_app in Hlen. cbn in Hlen.
    rewrite appends_snoc, (IH stored') by (assumption || lia). clear IH.
    destruct r as [[[x y] xe] ye]. cbn [fst snd]. cbn [BufferCurve.xy] in Hcells.
    assert (Hn : length stored' < length (rows b0)) by lia.
    destruct (lookup_lt_is_Some_2 (rows b0) (length stored') Hn) as [row Hrow].
    assert (Hrow2 : length row = 2).
    { eapply Forall_lookup_1 in Hw; eauto. }
    assert (Hdrop : drop (length stored') (rows b0)
                    = row :: drop (S (length stored')) (rows b0)).
    { now apply drop_S. }
    rewrite (append_plain (plain_state st0 b0 stored')
               (mk_ndarray (dtype b0) (stored' ++ drop (length stored') (rows b0)))
               (length stored') row cells); try reflexivity; try exact Hcells.
    + unfold plain_state. cbn [dtype rows data_updated]. f_equal. f_equal.
      * (* the block *)
        f_equal. f_equal. rewrite Hdrop.
        replace (length stored') with (length stored' + 0) at 1 by lia.
        rewrite insert_app_r. cbn.
        rewrite drop_ge by lia. rewrite app_nil_r.
        rewrite <- app_assoc, length_app. cbn.
        now rewrite Nat.add_1_r.
      * rewrite length_app. reflexivity.
      * (* the published series *)
        unfold rows_to.
        rewrite take_app_length, cols_to_2_stored by exact Hw'.
        rewrite removelast_last.
        destruct stored'; reflexivity.
      * rewrite length_app. cbn. lia.
    + cbn [rows]. rewrite lookup_app_r by lia.
      rewrite Nat.sub_diag, Hdrop. reflexivity.
Qed.

(** Without error bars the capacity bound holds: after [prepare] with
    capacity [C], [C] appends of values the data type takes return, and
    one more raises the overflow exception and leaves the curve as the
    [C]-th left it. *)
Lemma capacity_bound_plain (st0 : t V D) C dt mem rs stored x y xe ye :
  _errorBars st0 = None -> length rs = C -> stored_as dt rs stored ->
  appends rs (after (prepare C dt mem st0))
    = (inr tt, plain_state st0 (np_empty mem C 2 dt) stored) /\
  append x y xe ye (plain_state st0 (np_empty mem C 2 dt) stored)
    = (inl overflow, plain_state st0 (np_empty mem C 2 dt) stored).
Proof.
  intros He Hlen Hst. rewrite prepare_plain by exact He. unfold after. cbn [snd].
  pose proof (Forall2_length _ _ _ Hst) as Hlen'.
  split.
  - apply appends_plain; [apply np_empty_width|exact Hst|].
    rewrite np_empty_length. lia.
  - eapply append_overflow; try reflexivity. cbn [rows].
    rewrite length_app, length_drop, np_empty_length. lia.
Qed.

(** With error bars, a curve whose cursor is on row 0 stays there: every
    call raises, and on the empty maximum when its values are taken. *)
Lemma attempts_errors_stuck rs : forall (st : t V D) o b,
  _errorBars st = Some o -> _buffer st = Some b -> _ptr st = Some 0 ->
  0 < length (rows b) ->
  Forall (fun out => exists e, out = inl e) (fst (attempts rs st)) /\
  length (fst (attempts rs st)) = length rs /\
  (Forall (fun r => exists cells ecells,
             xy (dtype b) r = inr cells /\ errs (dtype b) r = inr ecells) rs ->
   fst (attempts rs st) = repeat (inl zero_size) (length rs)) /\
  _ptr (snd (attempts rs st)) = Some 0 /\
  data_updated (snd (attempts rs st)) = data_updated st.
Proof.
  induction rs as [|[[[x y] xe] ye] rs IH]; intros st o b He Hb Hp Hlen.
  - cbn. auto.
  - cbn [BufferCurve.attempts fst snd length repeat].
    destruct (append_errors_at_0_raised st o x y xe ye He Hp) as [e Hraise].
    destruct (append_frame st b 0 x y xe ye Hb Hp)
      as (b' & Hb' & Hdt & Hlen' & _ & Hmode & Hptr).
    pose proof (append_outcomes st x y xe ye) as Hout.
    rewrite Hraise in Hptr, Hout. destruct Hout as (Hdu & _ & Hebs).
    rewrite He in Hebs.
    destruct (IH (after (append x y xe ye st)) o b' Hebs Hb' Hptr)
      as (H1 & H2 & H3 & H4 & H5); [lia|].
    rewrite Hraise. repeat split.
    + constructor; eauto.
    + now rewrite H2.
    + intros Hall. apply Forall_cons in Hall as [(cells & ecells & Hc & Hec) Hall].
      rewrite Hdt in H3. rewrite (H3 Hall). f_equal.
      destruct (lookup_lt_is_Some_2 (rows b) 0 Hlen) as [row Hrow].
      cbn [BufferCurve.xy BufferCurve.errs] in Hc, Hec.
      rewrite (append_errors_at_0 st o b row cells ecells) in Hraise
        by assumption.
      cbn in Hraise. congruence.
    + exact H4.
    + now rewrite H5.
Qed.

(** C1 (defect of the code).  The capacity bound of the specification,
    that exactly C appends succeed after [prepare] with capacity C whether
    or not error bars were selected, does not hold for a curve created with
    error bars: with any capacity of at least one, no append returns, the
    cursor stays at 0 and no notification is emitted; an append of values
    the data type takes raises the [ValueError] of the maximum over the
    empty visible slice, before the cursor moves.  ([capacity_bound_plain]
    is the bound for a curve without error bars.) *)
Theorem append_with_error_bars_never_returns C dt mem rs :
  let st : t V D := after (prepare (S C) dt mem (__init__ true)) in
  Forall (fun out => exists e, out = inl e) (fst (attempts rs st)) /\
  length (fst (attempts rs st)) = length rs /\
  (Forall (fun r => exists cells ecells,
             xy dt r = inr cells /\ errs dt r = inr ecells) rs ->
   fst (attempts rs st) = repeat (inl zero_size) (length rs)) /\
  _ptr (snd (attempts rs st)) = Some 0 /\
  data_updated (snd (attempts rs st)) = 0.
Proof.
  cbv zeta.
  rewrite (prepare_errors (__init__ true) None) by reflexivity.
  unfold after. cbn [snd].
  assert (Hlen : 0 < length (rows (np_empty mem (S C) 4 dt)))
    by (rewrite np_empty_length; lia).
  exact (attempts_errors_stuck rs
           (mk (Some None) (Some (np_empty mem (S C) 4 dt)) (Some 0) None 0)
           None (np_empty mem (S C) 4 dt) eq_refl eq_refl eq_refl Hlen).
Qed.

(** C3.  After [prepare] with capacity C, when a run of k appends
    (0 < k <= C) has returned, the published series is the first k - 1
    records of the run, as the buffer holds them, so it has length k - 1
    and is empty after the first append: the record an append writes is
    published by the next one.  On a curve without error bars such a run,
    of values the data type takes, does return. *)
Theorem visibility_lag (st0 : t V D) C dt mem rs stored :
  0 < length rs -> length rs <= C -> stored_as dt rs stored ->
  let r := appends rs (after (prepare C dt mem st0)) in
  (_errorBars st0 = None -> outcome r = inr tt) /\
  (outcome r = inr tt ->
   plot_data (after r) = Some (take (length rs - 1) stored) /\
   length (take (length rs - 1) stored) = length rs - 1).
Proof.
  intros Hpos Hle Hst. cbv zeta.
  pose proof (Forall2_length _ _ _ Hst) as Hlen.
  destruct (_errorBars st0) as [o|] eqn:He.
  - split; [discriminate|]. intros Hok. exfalso.
    destruct rs as [|[[[x y] xe] ye] rs]; [cbn in Hpos; lia|].
    revert Hok.
    rewrite (prepare_errors st0 o) by exact He.
    unfold after at 1. cbn [snd BufferCurve.appends]. unfold bind at 1.
    edestruct (append_errors_at_0_raised
                 (mk (Some o) (Some (np_empty mem C 4 dt)) (Some 0)
                     (plot_data st0) (data_updated st0)) o x y xe ye)
      as [e Hraise]; try reflexivity.
    unfold outcome in Hraise.
    destruct (append x y xe ye _) as [[e'|[]] st']; cbn in Hraise;
      [|discriminate].
    cbn. discriminate.
  - rewrite prepare_plain by exact He. unfold after, outcome. cbn [snd].
    rewrite (appends_plain st0 (np_empty mem C 2 dt) rs stored);
      [|apply np_empty_width|exact Hst|rewrite np_empty_length; exact Hle].
    split; [reflexivity|]. intros _. unfold plain_state. cbn [snd plot_data].
    destruct stored as [|row stored]; [cbn in Hlen; lia|].
    split.
    + rewrite removelast_firstn_len. do 2 f_equal. cbn in Hlen |- *. lia.
    + rewrite length_take. cbn in Hlen |- *. lia.
Qed.

(** C6.  An append on a curve that was never prepared raises the
    exception of the missing buffer and emits nothing; an append that
    returns has emitted [data_updated] exactly once, and an append that
    raises has not emitted it. *)
Theorem append_notification (st : t V D) x y xe ye :
  let r := append x y xe ye st in
  (_buffer st = None ->
   outcome r = inl not_prepared /\ data_updated (after r) = data_updated st) /\
  (outcome r = inr tt -> data_updated (after r) = S (data_updated st)) /\
  (raised r -> data_updated (after r) = data_updated st).
Proof.
  cbv zeta. pose proof (append_outcomes st x y xe ye) as H.
  repeat split.
  - now rewrite append_unprepared.
  - now rewrite append_unprepared.
  - intros Hok. now rewrite Hok in H.
  - intros [e He]. rewrite He in H. tauto.
Qed.

(** C10.  On a curve created without error bars, an append that is
    given error values is the same call as the one without them; on a
    prepared curve with a free row it returns when the data type takes x
    and y, and the row it writes holds x and y, as cells, and none of the
    error values. *)
Theorem append_discards_errors (st : t V D) x y xe ye :
  _errorBars st = None ->
  append x y (Some xe) (Some ye) st = append x y None None st /\
  (forall b p row cells,
     _buffer st = Some b -> _ptr st = Some p -> rows b !! p = Some row ->
     length row = 2 ->
     convert_all convert (dtype b) [Some x; Some y] = inr cells ->
     outcome (append x y (Some xe) (Some ye) st) = inr tt /\
     _buffer (after (append x y (Some xe) (Some ye) st))
       = Some (mk_ndarray (dtype b) (<[p := cells]> (rows b)))).
Proof.
  intros He. split.
  - destruct st as [e bf pt pd du]; cbn in He; subst. reflexivity.
  - intros b p row cells Hb Hp Hrow Hw Hconv.
    rewrite (append_plain st b p row cells) by assumption.
    unfold outcome, after. cbn. split; [reflexivity|].
    rewrite drop_ge by lia. now rewrite app_nil_r.
Qed.
End BufferCurveFacts.

(** ** ResultsCurve *)

Section ResultsCurveFacts.
Context {V : Type}.
Variable col_gt : list V -> list V -> exn + bool.

Import ResultsCurve.

Abbreviation update := (ResultsCurve.update col_gt).
Abbreviation updates := (ResultsCurve.updates col_gt).
Abbreviation py_max := (ResultsCurve.py_max col_gt).

#[local] Arguments Results.getitem : simpl never.
#[local] Arguments ResultsCurve.py_max : simpl never.

Ltac run_update :=
  unfold ResultsCurve.update, bind, get, results_reload, Results.reload,
    modify, ret, raise, lift, hasattr_errorBars, outcome, after;
  cbn [results x y force_reload _errorBars xerr yerr plot_data fst snd
       Results.data Results.file Results.reloads].

Ltac split_update :=
  repeat match goal with
  | |- context [match ?f ?n with Some _ => _ | None => _ end] =>
      destruct (f n) eqn:?; cbn
  | |- context [Results.getitem ?d ?k] =>
      is_var d; destruct (Results.getitem d k) eqn:?; cbn
  | |- context [ResultsCurve.py_max ?g ?a ?b] =>
      destruct (ResultsCurve.py_max g a b) eqn:?; cbn
  end.

Lemma getitem_Some (d : gmap string (list V)) name c :
  Results.getitem d (Some name) = inr c <-> d !! name = Some c.
Proof.
  unfold Results.getitem. destruct (d !! name); split; congruence.
Qed.

(** The constructor's arguments stay as they were. *)
Lemma update_keeps_config (c : t V) :
  force_reload (after (update c)) = force_reload c /\
  x (after (update c)) = x c /\ y (after (update c)) = y c /\
  xerr (after (update c)) = xerr c /\ yerr (after (update c)) = yerr c.
Proof.
  destruct c as [[d f n] cx cy fr eb ex ey pd].
  run_update. destruct fr, eb; cbn; split_update; auto.
Qed.

(** One call of [update] calls [reload] once with forced reload, and not
    at all without. *)
Lemma update_reloads (c : t V) :
  Results.reloads (results (after (update c))) =
    if force_reload c then S (Results.reloads (results c))
    else Results.reloads (results c).
Proof.
  destruct c as [[d f n] cx cy fr eb ex ey pd].
  run_update. destruct fr, eb; cbn; split_update; auto.
Qed.

(** What a call that returned has read and handed to the plot: the
    snapshot is the one the results object holds after the call. *)
Lemma update_inv (c : t V) :
  outcome (update c) = inr tt ->
  let d := Results.data (results (after (update c))) in
  exists dx dy,
    d !! x c = Some dx /\ d !! y c = Some dy /\
    plot_data (after (update c)) = Some (dx, dy) /\
    match _errorBars c with
    | None => _errorBars (after (update c)) = None
    | Some _ =>
      exists ex ey beam,
        Results.getitem d (xerr c) = inr ex /\
        Results.getitem d (yerr c) = inr ey /\
        py_max ex ey = inr beam /\
        _errorBars (after (update c)) =
          Some (Some {| eb_x := dx; eb_y := dy;
                        eb_top := ey; eb_bottom := ey;
                        eb_left := ex; eb_right := ey;
                        eb_beam := beam |})
    end.
Proof.
  destruct c as [[d f n] cx cy fr eb ex ey pd].
  run_update.
  destruct fr, eb; cbn; split_update; try (intros H; discriminate H); intros _;
    repeat match goal with
    | H : Results.getitem _ (Some _) = inr _ |- _ => apply getitem_Some in H
    end;
    try discriminate; simplify_eq;
    do 2 eexists; repeat split; eauto;
    do 3 eexists; repeat split; eauto.
Qed.



Lemma updates_reloads n : forall c : t V,
  Results.reloads (results (updates n c)) =
    Results.reloads (results c) + (if force_reload c then n else 0).
Proof.
  induction n as [|n IH]; intros c.
  - cbn. destruct (force_reload c); lia.
  - cbn [ResultsCurve.updates]. rewrite IH, update_reloads.
    destruct (update_keeps_config c) as [-> _].
    destruct (force_reload c); lia.
Qed.

(** With forced reload the snapshot a call reads is the one the reload
    of that call produced. *)
Lemma update_reads_reloaded (c : t V) d :
  force_reload c = true ->
  Results.file (results c) (Results.reloads (results c)) = Some d ->
  Results.data (results (after (update c))) = d.
Proof.
  destruct c as [[d0 f n] cx cy fr eb ex ey pd]. cbn. intros -> Hf.
  run_update. rewrite Hf. cbn.
  destruct eb; cbn; split_update; reflexivity.
Qed.

Lemma update_keeps_snapshot (c : t V) :
  force_reload c = false ->
  Results.data (results (after (update c))) = Results.data (results c).
Proof.
  destruct c as [[d0 f n] cx cy fr eb ex ey pd]. cbn. intros ->.
  run_update. cbn.
  destruct eb; cbn; split_update; reflexivity.
Qed.

(** C7.  With forced reload each call of [update] calls [reload] exactly
    once, before it reads the snapshot: the series it publishes is taken
    from the reloaded snapshot, and [n] calls make [n] reloads.  Without
    forced reload no call of [update] calls [reload], however many there
    are, and the snapshot stays the one the results object held. *)
Theorem reload_gating (c : t V) (n : nat) :
  (force_reload c = true ->
   Results.reloads (results (after (update c))) = S (Results.reloads (results c)) /\
   Results.reloads (results (updates n c)) = Results.reloads (results c) + n /\
   (forall d, Results.file (results c) (Results.reloads (results c)) = Some d ->
      outcome (update c) = inr tt ->
      exists dx dy, d !! x c = Some dx /\ d !! y c = Some dy /\
        plot_data (after (update c)) = Some (dx, dy))) /\
  (force_reload c = false ->
   Results.reloads (results (after (update c))) = Results.reloads (results c) /\
   Results.reloads (results (updates n c)) = Results.reloads (results c) /\
   Results.data (results (after (update c))) = Results.data (results c)).
Proof.
  split; intros Hfr.
  - repeat split.
    + now rewrite update_reloads, Hfr.
    + now rewrite updates_reloads, Hfr.
    + intros d Hf Hok.
      destruct (update_inv c Hok) as (dx & dy & Hx & Hy & Hpd & _).
      rewrite (update_reads_reloaded c d Hfr Hf) in Hx, Hy. eauto.
  - repeat split.
    + now rewrite update_reloads, Hfr.
    + rewrite updates_reloads, Hfr. lia.
    + now apply update_keeps_snapshot.
Qed.

(** C4 (defect of the code).  After an [update] that returned on a curve
    with error columns, the overlay is built from the snapshot the series
    came from, its top, bottom and left extents are the y-error, y-error
    and x-error columns, but its right extent is the y-error column, not
    the x-error column the specification asks for and [BufferCurve.append]
    uses; the beam is the greater of the two columns as the builtin [max]
    orders them. *)
Theorem overlay_right_is_y_error (c : t V) o :
  _errorBars c = Some o ->
  outcome (update c) = inr tt ->
  let d := Results.data (results (after (update c))) in
  exists dx dy ex ey beam,
    d !! x c = Some dx /\ d !! y c = Some dy /\
    Results.getitem d (xerr c) = inr ex /\
    Results.getitem d (yerr c) = inr ey /\
    py_max ex ey = inr beam /\
    plot_data (after (update c)) = Some (dx, dy) /\
    _errorBars (after (update c)) =
      Some (Some {| eb_x := dx; eb_y := dy;
                    eb_top := ey; eb_bottom := ey;
                    eb_left := ex; eb_right := ey;
                    eb_beam := beam |}).
Proof.
  intros He Hok. cbv zeta.
  destruct (update_inv c Hok) as (dx & dy & Hx & Hy & Hpd & H).
  rewrite He in H. destruct H as (ex & ey & beam & Hex & Hey & Hmax & Heb).
  exists dx, dy, ex, ey, beam. auto 10.
Qed.


End ResultsCurveFacts.

(** ** Crosshairs *)

Section CrosshairsFacts.
Context {R : Type}.

Import Crosshairs.

(** C8.  [mouseMoved] called with [None] for the event raises, and leaves
    the recorded position, both guide lines and the emitted coordinates as
    they were; the state in which no event was seen yet is another matter,
    there [update] returns without doing anything. *)
Theorem mouseMoved_without_event (st : t R) :
  mouseMoved None st = (inl not_known, st) /\
  (position st = None -> update st = (inr tt, st)).
Proof.
  split; [reflexivity|].
  destruct st as [v h p m cs]; cbn. intros ->. reflexivity.
Qed.

(** C9.  [update] with no position recorded returns without emitting or
    moving a line; with a position recorded it maps that position through
    the view transform of the moment, emits the pair and puts the vertical
    line at its first and the horizontal line at its second component; so
    under the identity transform the recorded scene position is what is
    emitted and where the lines go. *)
Theorem update_republishes (st : t R) :
  (position st = None -> update st = (inr tt, st)) /\
  (forall p, position st = Some p ->
     let mousePoint := mapSceneToView st p in
     update st =
       (inr tt,
        mk (setPos (fst mousePoint) (vertical st))
           (setPos (snd mousePoint) (horizontal st))
           (Some p) (mapSceneToView st)
           (coordinates st ++ [(fst mousePoint, snd mousePoint)]))) /\
  (forall a b, position st = Some (a, b) ->
     (forall q, mapSceneToView st q = q) ->
     coordinates (after (update st)) = coordinates st ++ [(a, b)] /\
     pos (vertical (after (update st))) = Some a /\
     pos (horizontal (after (update st))) = Some b).
Proof.
  destruct st as [v h p m cs]; cbn [position mapSceneToView coordinates].
  split; [|split].
  - intros ->. reflexivity.
  - intros q ->. reflexivity.
  - intros a b -> Hid. unfold after. cbn. now rewrite Hid.
Qed.
End CrosshairsFacts.

(** ** Failures and the overlay, across the two curves *)

Section EngineFacts.
Context {A V D : Type}.
Variable convert : D -> option A -> exn + V.
Variable torn : nat -> list V -> list (option A) -> list V.
Variable nan : V.
Variable vmax : V -> V -> V.
Variable col_gt : list V -> list V -> exn + bool.

Abbreviation b_append := (BufferCurve.append convert torn nan vmax).
Abbreviation r_update := (ResultsCurve.update col_gt).


End EngineFacts.

(** * The properties on concrete inputs *)

Section Runs.
Open Scope Z_scope.

(** The failing input of C1: [BufferCurve(errors=True)], [prepare(2)],
    [append(1, 2, 3, 4)].  The call raises; row 0 is written, the empty
    series published, the cursor still at 0 and nothing emitted. *)
Example error_curve_first_append :
  BufferCurve.append Demo.convert Demo.torn 0 Z.max 1 2 (Some 3) (Some 4) Demo.error_curve =
    (inl zero_size,
     BufferCurve.mk (Some None)
       (Some (mk_ndarray Demo.float32 [[1; 2; 3; 4]; [0; 0; 0; 0]]))
       (Some 0%nat) (Some []) 0%nat).
Proof. reflexivity. Qed.

(** The failing input of C4: the right extent is the y-error column
    [[4]], the x-error column is [[3]]. *)
Example right_extent_of_demo_curve :
  ResultsCurve._errorBars (after (ResultsCurve.update Demo.col_gt Demo.curve)) =
    Some (Some {| eb_x := [1]; eb_y := [2]; eb_top := [4]; eb_bottom := [4];
                  eb_left := [3]; eb_right := [4]; eb_beam := [4] |}) /\
  Results.getitem Demo.snapshot (Some "dx") = inr [3].
Proof. split; vm_compute; reflexivity. Qed.



Lemma visibility_lag_witness :
  (0 < length Demo.records)%nat /\ (length Demo.records <= 2)%nat /\
  outcome (BufferCurve.appends Demo.convert Demo.torn 0 Z.max Demo.records Demo.plain_curve) = inr tt /\
  BufferCurve.plot_data
    (after (BufferCurve.appends Demo.convert Demo.torn 0 Z.max Demo.records Demo.plain_curve))
    = Some [[1; 2]].
Proof.
  assert (H1 : (0 < length Demo.records)%nat) by (cbn; lia).
  assert (H2 : (length Demo.records <= 2)%nat) by (cbn; lia).
  assert (H3 : BufferCurve.stored_as Demo.convert Demo.float32 Demo.records
                 [[1; 2]; [3; 4]]) by (repeat constructor).
  destruct (visibility_lag Demo.convert Demo.torn 0 Z.max (BufferCurve.__init__ false)
              2 Demo.float32 Demo.mem Demo.records [[1; 2]; [3; 4]] H1 H2 H3)
    as [Hret Hpub].
  split; [exact H1|]. split; [exact H2|]. split; [exact (Hret eq_refl)|].
  exact (proj1 (Hpub (Hret eq_refl))).
Defined.

Lemma overlay_right_is_y_error_witness :
  ResultsCurve._errorBars Demo.curve = Some None /\
  outcome (ResultsCurve.update Demo.col_gt Demo.curve) = inr tt /\
  exists dx dy ex ey beam,
    Demo.snapshot !! "x" = Some dx /\ Demo.snapshot !! "y" = Some dy /\
    Results.getitem Demo.snapshot (Some "dx") = inr ex /\
    Results.getitem Demo.snapshot (Some "dy") = inr ey /\
    ResultsCurve.py_max Demo.col_gt ex ey = inr beam /\
    ResultsCurve.plot_data (after (ResultsCurve.update Demo.col_gt Demo.curve))
      = Some (dx, dy) /\
    ResultsCurve._errorBars (after (ResultsCurve.update Demo.col_gt Demo.curve)) =
      Some (Some {| eb_x := dx; eb_y := dy; eb_top := ey; eb_bottom := ey;
                    eb_left := ex; eb_right := ey; eb_beam := beam |}).
Proof.
  assert (He : ResultsCurve._errorBars Demo.curve = Some None) by reflexivity.
  assert (Hok : outcome (ResultsCurve.update Demo.col_gt Demo.curve) = inr tt)
    by (vm_compute; reflexivity).
  split; [exact He|]. split; [exact Hok|].
  exact (overlay_right_is_y_error Demo.col_gt Demo.curve None He Hok).
Defined.



Lemma append_notification_witness :
  BufferCurve._buffer (BufferCurve.__init__ (V:=Z) (D:=Demo.data_type) false) = None /\
  outcome (BufferCurve.append Demo.convert Demo.torn 0 Z.max 1 2 None None (BufferCurve.__init__ false))
    = inl not_prepared /\
  BufferCurve.data_updated
    (after (BufferCurve.append Demo.convert Demo.torn 0 Z.max 1 2 None None (BufferCurve.__init__ false)))
    = 0%nat /\
  outcome (BufferCurve.append Demo.convert Demo.torn 0 Z.max 1 2 None None Demo.plain_curve) = inr tt /\
  BufferCurve.data_updated
    (after (BufferCurve.append Demo.convert Demo.torn 0 Z.max 1 2 None None Demo.plain_curve)) = 1%nat.
Proof.
  destruct (append_notification Demo.convert Demo.torn 0 Z.max
              (BufferCurve.__init__ false) 1 2 None None)
    as (Hunprep & _ & _).
  destruct (append_notification Demo.convert Demo.torn 0 Z.max
              Demo.plain_curve 1 2 None None)
    as (_ & Hok & _).
  split; [reflexivity|]. split; [exact (proj1 (Hunprep eq_refl))|].
  split; [exact (proj2 (Hunprep eq_refl))|].
  split; [reflexivity|exact (Hok eq_refl)].
Defined.

Lemma reload_gating_witness :
  ResultsCurve.force_reload Demo.curve_reloading = true /\
  Results.reloads (ResultsCurve.results
    (after (ResultsCurve.update Demo.col_gt Demo.curve_reloading))) = 1%nat /\
  Results.reloads (ResultsCurve.results
    (ResultsCurve.updates Demo.col_gt 3 Demo.curve_reloading)) = 3%nat /\
  ResultsCurve.force_reload Demo.curve = false /\
  Results.reloads (ResultsCurve.results
    (ResultsCurve.updates Demo.col_gt 3 Demo.curve)) = 0%nat.
Proof.
  destruct (reload_gating Demo.col_gt Demo.curve_reloading 3) as [Hon _].
  destruct (reload_gating Demo.col_gt Demo.curve 3) as [_ Hoff].
  split; [reflexivity|]. split; [exact (proj1 (Hon eq_refl))|].
  split; [exact (proj1 (proj2 (Hon eq_refl)))|].
  split; [reflexivity|exact (proj1 (proj2 (Hoff eq_refl)))].
Defined.

Lemma mouseMoved_without_event_witness :
  Crosshairs.position Demo.crosshairs = None /\
  Crosshairs.mouseMoved None Demo.crosshairs = (inl not_known, Demo.crosshairs) /\
  Crosshairs.update Demo.crosshairs = (inr tt, Demo.crosshairs).
Proof.
  destruct (mouseMoved_without_event Demo.crosshairs) as [Hraise Hnoop].
  split; [reflexivity|]. split; [exact Hraise|exact (Hnoop eq_refl)].
Defined.

Lemma update_republishes_witness :
  Crosshairs.position Demo.crosshairs_at_5_7 = Some (5.0%float, 7.0%float) /\
  Crosshairs.coordinates (after (Crosshairs.update Demo.crosshairs_at_5_7))
    = [(5.0%float, 7.0%float)] /\
  Crosshairs.pos (Crosshairs.vertical
    (after (Crosshairs.update Demo.crosshairs_at_5_7))) = Some 5.0%float /\
  Crosshairs.pos (Crosshairs.horizontal
    (after (Crosshairs.update Demo.crosshairs_at_5_7))) = Some 7.0%float /\
  Crosshairs.position Demo.crosshairs = None /\
  Crosshairs.update Demo.crosshairs = (inr tt, Demo.crosshairs).
Proof.
  destruct (update_republishes Demo.crosshairs_at_5_7) as (_ & _ & Hid).
  destruct (update_republishes Demo.crosshairs) as (Hnone & _ & _).
  split; [reflexivity|].
  split; [exact (proj1 (Hid _ _ eq_refl (fun q => eq_refl)))|].
  split; [exact (proj1 (proj2 (Hid _ _ eq_refl (fun q => eq_refl))))|].
  split; [exact (proj2 (proj2 (Hid _ _ eq_refl (fun q => eq_refl))))|].
  split; [reflexivity|exact (Hnone eq_refl)].
Defined.

Lemma append_discards_errors_witness :
  BufferCurve._errorBars Demo.plain_curve = None /\
  BufferCurve.append Demo.convert Demo.torn 0 Z.max 1 2 (Some 9) (Some 9) Demo.plain_curve
    = BufferCurve.append Demo.convert Demo.torn 0 Z.max 1 2 None None Demo.plain_curve /\
  outcome (BufferCurve.append Demo.convert Demo.torn 0 Z.max 1 2 (Some 9) (Some 9) Demo.plain_curve)
    = inr tt /\
  BufferCurve._buffer
    (after (BufferCurve.append Demo.convert Demo.torn 0 Z.max 1 2 (Some 9) (Some 9) Demo.plain_curve))
    = Some (mk_ndarray Demo.float32 [[1; 2]; [0; 0]]).
Proof.
  destruct (append_discards_errors Demo.convert Demo.torn 0 Z.max
              Demo.plain_curve 1 2 9 9 eq_refl) as [Hsame Hrow].
  split; [reflexivity|]. split; [exact Hsame|].
  exact (Hrow (np_empty Demo.mem 2 2 Demo.float32) 0%nat [0; 0] [1; 2]
           eq_refl eq_refl eq_refl eq_refl eq_refl).
Defined.

Lemma append_with_error_bars_never_returns_witness :
  Forall (fun r => exists cells ecells,
            BufferCurve.xy Demo.convert Demo.float32 r = inr cells /\
            BufferCurve.errs Demo.convert Demo.float32 r = inr ecells)
         Demo.records /\
  fst (BufferCurve.attempts Demo.convert Demo.torn 0 Z.max Demo.records
         Demo.error_curve) = [inl zero_size; inl zero_size] /\
  BufferCurve._ptr
    (snd (BufferCurve.attempts Demo.convert Demo.torn 0 Z.max Demo.records
            Demo.error_curve)) = Some 0%nat.
Proof.
  assert (Hall : Forall (fun r => exists cells ecells,
            BufferCurve.xy Demo.convert Demo.float32 r = inr cells /\
            BufferCurve.errs Demo.convert Demo.float32 r = inr ecells)
         Demo.records).
  { repeat constructor; eexists _, _; split; reflexivity. }
  destruct (append_with_error_bars_never_returns Demo.convert Demo.torn 0 Z.max
              1%nat Demo.float32 Demo.mem Demo.records)
    as (_ & _ & Hzero & Hptr & _).
  split; [exact Hall|]. split; [exact (Hzero Hall)|exact Hptr].
Defined.
End Runs.

(** * Further properties of the code *)

(** ** BufferCurve: capacity, storage and the cursor *)

Section BufferCurveMore.
Context {A V D : Type}.
Variable convert : D -> option A -> exn + V.
Variable torn : nat -> list V -> list (option A) -> list V.
Variable nan : V.
Variable vmax : V -> V -> V.

Import BufferCurve.

Abbreviation append' := (BufferCurve.append convert torn nan vmax).
Abbreviation appends' := (BufferCurve.appends convert torn nan vmax).
Abbreviation attempts' := (BufferCurve.attempts convert torn nan vmax).
Abbreviation xy' := (BufferCurve.xy convert).
Abbreviation errs' := (BufferCurve.errs convert).
Abbreviation stored_as' := (BufferCurve.stored_as convert).

Lemma attempts_app rs1 : forall rs2 (st : t V D),
  attempts' (rs1 ++ rs2) st =
    (fst (attempts' rs1 st) ++ fst (attempts' rs2 (snd (attempts' rs1 st))),
     snd (attempts' rs2 (snd (attempts' rs1 st)))).
Proof.
  induction rs1 as [|[[[x y] xe] ye] rs1 IH]; intros rs2 st.
  - cbn [app BufferCurve.attempts fst snd]. now destruct (attempts' rs2 st).
  - cbn [app BufferCurve.attempts fst snd]. now rewrite IH.
Qed.

(** A run that returned as a whole is a run of calls that each returned. *)
Lemma attempts_of_appends rs : forall (st st' : t V D),
  appends' rs st = (inr tt, st') ->
  attempts' rs st = (repeat (inr tt) (length rs), st').
Proof.
  induction rs as [|[[[x y] xe] ye] rs IH]; intros st st'.
  - cbn. unfold ret. now intros [= ->].
  - cbn [BufferCurve.appends BufferCurve.attempts length repeat]. unfold bind.
    destruct (append' x y xe ye st) as [[e|[]] st1] eqn:Hap; [discriminate|].
    intros Hrest. unfold outcome, after. cbn [fst snd].
    now rewrite (IH _ _ Hrest).
Qed.

Lemma attempts_overflow rs : forall (st : t V D) b p,
  _buffer st = Some b -> _ptr st = Some p -> length (rows b) <= p ->
  attempts' rs st = (repeat (inl overflow) (length rs), st).
Proof.
  induction rs as [|[[[x y] xe] ye] rs IH]; intros st b p Hb Hp Hle.
  - reflexivity.
  - cbn [BufferCurve.attempts length repeat].
    rewrite (append_overflow convert torn nan vmax st b p) by assumption.
    unfold outcome, after. cbn [fst snd].
    now rewrite (IH st b p).
Qed.

(** X1.  Without error bars the capacity bound holds.  After [prepare]
    with capacity C, of C + m appends made by a caller that goes on after an
    exception, the first C, of values the data type takes, return and the
    last m raise the overflow exception, whatever their values; the curve
    ends as the C-th append left it, cursor at C, C emissions more, the
    first C - 1 records published. *)
Theorem capacity_bound_without_error_bars (st0 : t V D) C dt mem rs stored more :
  _errorBars st0 = None -> length rs = C -> stored_as' dt rs stored ->
  attempts' (rs ++ more) (after (prepare C dt mem st0)) =
    (repeat (inr tt) C ++ repeat (inl overflow) (length more),
     plain_state st0 (np_empty mem C 2 dt) stored).
Proof.
  intros He Hlen Hst. rewrite attempts_app.
  pose proof (Forall2_length _ _ _ Hst) as Hlen'.
  rewrite prepare_plain by exact He. unfold after. cbn [snd].
  rewrite (attempts_of_appends rs _ (plain_state st0 (np_empty mem C 2 dt) stored)).
  - cbn [fst snd]. rewrite Hlen.
    rewrite (attempts_overflow more _
               (mk_ndarray dt (stored ++ drop (length stored)
                                            (rows (np_empty mem C 2 dt))))
               (length stored));
      try reflexivity.
    cbn [rows]. rewrite length_app, length_drop, np_empty_length. lia.
  - apply appends_plain; [apply np_empty_width|exact Hst|].
    rewrite np_empty_length. lia.
Qed.

(** X2.  What was appended is what the buffer holds, in the data type of
    the buffer.  After a run of k <= C appends on a curve without error
    bars prepared with capacity C, of values the data type takes, the array
    has the data type given to [prepare] and still C rows, row i holds the
    x and the y of the i-th record converted to that data type, for every
    i < k, and the rows from k on are as [np.empty] left them. *)
Theorem appended_records_are_stored (st0 : t V D) C dt mem rs stored :
  _errorBars st0 = None -> length rs <= C -> stored_as' dt rs stored ->
  exists b,
    _buffer (after (appends' rs (after (prepare C dt mem st0)))) = Some b /\
    dtype b = dt /\ length (rows b) = C /\
    (forall i r, rs !! i = Some r ->
       exists row, xy' dt r = inr row /\ rows b !! i = Some row) /\
    (forall i, length rs <= i -> rows b !! i = rows (np_empty mem C 2 dt) !! i).
Proof.
  intros He Hlen Hst. rewrite prepare_plain by exact He. unfold after at 2. cbn [snd].
  pose proof (Forall2_length _ _ _ Hst) as Hlen'.
  rewrite (appends_plain convert torn nan vmax st0 (np_empty mem C 2 dt) rs stored);
    [|apply np_empty_width|exact Hst|rewrite np_empty_length; exact Hlen].
  unfold after, plain_state. cbn [snd _buffer].
  eexists. split; [reflexivity|]. cbn [dtype rows]. split; [reflexivity|].
  split; [|split].
  - rewrite length_app, length_drop.
    change (length (map _ (seq 0 C))) with (length (rows (np_empty mem C 2 dt))).
    rewrite np_empty_length. lia.
  - intros i r Hr.
    destruct (Forall2_lookup_l _ _ _ _ _ Hst Hr) as (row & Hrow & Hconv).
    exists row. split; [exact Hconv|].
    rewrite lookup_app_l by (eapply lookup_lt_Some; eauto). exact Hrow.
  - intros i Hi.
    rewrite lookup_app_r by lia.
    rewrite lookup_drop. f_equal. lia.
Qed.

(** X3.  The cursor stays within the block.  [prepare] puts it there,
    and a call of [append], returning or raising, keeps it there; the call
    leaves the number of rows as it is, writes no row below the cursor,
    keeps the curve with or without its error bars, and moves the cursor,
    by one row, exactly when it returns. *)
Theorem cursor_stays_in_bounds (st0 st : t V D) size dt mem x y xe ye :
  cursor_in_bounds (after (prepare size dt mem st0)) /\
  (cursor_in_bounds st -> cursor_in_bounds (after (append' x y xe ye st))) /\
  (forall b p, _buffer st = Some b -> _ptr st = Some p ->
     exists b',
       _buffer (after (append' x y xe ye st)) = Some b' /\
       length (rows b') = length (rows b) /\
       rows_to p (rows b') = rows_to p (rows b) /\
       hasattr_errorBars (after (append' x y xe ye st)) = hasattr_errorBars st /\
       _ptr (after (append' x y xe ye st)) =
         Some (match outcome (append' x y xe ye st) with
               | inr _ => p + 1
               | inl _ => p
               end)).
Proof.
  split; [|split].
  - destruct st0 as [[o|] bf pt pd du]; cbn; eexists _, 0;
      (split; [reflexivity|]); (split; [reflexivity|]); lia.
  - intros (b & p & Hb & Hp & Hle).
    destruct (append_frame convert torn nan vmax st b p x y xe ye Hb Hp)
      as (b' & Hb' & _ & Hlen & _ & _ & Hptr).
    destruct (outcome (append' x y xe ye st)) as [e|[]].
    + exists b', p. rewrite Hlen. auto.
    + destruct Hptr as [Hptr Hlt]. exists b', (p + 1). rewrite Hlen.
      repeat split; auto. lia.
  - intros b p Hb Hp.
    destruct (append_frame convert torn nan vmax st b p x y xe ye Hb Hp)
      as (b' & Hb' & _ & Hlen & Hrows & Hmode & Hptr).
    exists b'. repeat split; auto.
    destruct (outcome (append' x y xe ye st)) as [e|[]]; tauto.
Qed.

(** X4.  A curve prepared with capacity 0 takes nothing.  With or
    without error bars every append raises the overflow exception, and the
    curve stays as [prepare] left it: the capacity test comes before
    anything is converted, written or published. *)
Theorem zero_capacity_takes_nothing (st0 : t V D) dt mem rs :
  attempts' rs (after (prepare 0 dt mem st0)) =
    (repeat (inl overflow) (length rs), after (prepare 0 dt mem st0)).
Proof.
  apply (attempts_overflow rs _ (mk_ndarray dt []) 0); [| |cbn; lia];
    destruct st0 as [[o|] bf pt pd du]; reflexivity.
Qed.

(** A value the data type does not take ends the call at the write of
    the record: the conversion's exception is raised and only the row at
    the cursor may have changed. *)
Lemma append_unconvertible (st : t V D) b p row x y xe ye e :
  _buffer st = Some b -> _ptr st = Some p -> rows b !! p = Some row ->
  convert_all convert (dtype b) [Some x; Some y] = inl e ->
  append' x y xe ye st =
    (inl e,
     set_buffer (mk_ndarray (dtype b)
                   (<[p := torn 0 row [Some x; Some y]]> (rows b))) st).
Proof.
  intros Hb Hp Hrow Hc.
  assert (Hlt : p < length (rows b)) by (apply lookup_lt_is_Some; eauto).
  destruct st as [e0 bf pt pd du]; cbn in Hb, Hp; subst.
  unfold BufferCurve.append, bind, get, the_ptr, the_buffer, setitem_row,
    modify, ret, raise, bind, get, hasattr_errorBars, lift, outcome, after.
  cbn [_buffer _ptr _errorBars fst snd].
  apply Nat.leb_gt in Hlt. rewrite Hlt.
  cbn -[take drop np_max convert_all]. rewrite Hrow, Hc. reflexivity.
Qed.

Lemma append_errors_row_0 (st : t V D) o dt r0 rest cells ecells x y xe ye :
  _errorBars st = Some o -> _buffer st = Some (mk_ndarray dt (r0 :: rest)) ->
  _ptr st = Some 0 ->
  convert_all convert dt [Some x; Some y] = inr cells ->
  convert_all convert dt [xe; ye] = inr ecells ->
  append' x y xe ye st =
    (inl zero_size,
     mk (Some o) (Some (mk_ndarray dt ((cells ++ ecells) :: rest))) (Some 0)
        (Some []) (data_updated st)).
Proof.
  intros He Hb Hp Hc Hec.
  rewrite (append_errors_at_0 convert torn nan vmax st o
             (mk_ndarray dt (r0 :: rest)) r0 cells ecells)
    by (assumption || reflexivity).
  cbn [dtype rows]. do 6 f_equal. cbn.
  rewrite take_app_length'; [reflexivity|].
  now rewrite (convert_all_length _ _ _ _ Hc).
Qed.

(** X5.  With error bars an append that raises has still written and
    published.  After [prepare] with a capacity of at least one and any
    run of appends, an append of values the data type takes raises on the
    empty maximum and leaves its record in row 0, with the error values,
    the other rows as [np.empty] left them, the published series empty, the
    cursor at 0 and nothing emitted. *)
Theorem failed_append_overwrites_row_0 (st0 : t V D) o C dt mem rs
    x y xe ye cells ecells :
  _errorBars st0 = Some o ->
  convert_all convert dt [Some x; Some y] = inr cells ->
  convert_all convert dt [xe; ye] = inr ecells ->
  snd (attempts' (rs ++ [(x, y, xe, ye)]) (after (prepare (S C) dt mem st0))) =
    mk (Some o)
       (Some (mk_ndarray dt ((cells ++ ecells)
                             :: drop 1 (rows (np_empty mem (S C) 4 dt)))))
       (Some 0) (Some []) (data_updated st0).
Proof.
  intros He Hc Hec. rewrite (prepare_errors st0 o) by exact He.
  unfold after. cbn [snd].
  rewrite attempts_app. cbn [snd].
  assert (Hinv : forall rs' (st : t V D) b,
            _errorBars st = Some o -> _buffer st = Some b -> _ptr st = Some 0 ->
            dtype b = dt -> 0 < length (rows b) ->
            exists b' pd,
              snd (attempts' rs' st) =
                mk (Some o) (Some b') (Some 0) pd (data_updated st) /\
              dtype b' = dt /\ 0 < length (rows b') /\
              drop 1 (rows b') = drop 1 (rows b)).
  { induction rs' as [|[[[x' y'] xe'] ye'] rs' IH]; intros st b He' Hb' Hp' Hdt Hlen.
    - destruct st as [e bf pt pd du]; cbn in He', Hb', Hp'; subst. cbn. eauto 10.
    - cbn [BufferCurve.attempts snd].
      destruct (append_errors_at_0_raised convert torn nan vmax st o x' y' xe' ye'
                  He' Hp') as [e Hraise].
      destruct (append_frame convert torn nan vmax st b 0 x' y' xe' ye' Hb' Hp')
        as (b1 & Hb1 & Hdt1 & Hlen1 & _ & _ & Hptr).
      pose proof (append_outcomes convert torn nan vmax st x' y' xe' ye') as Hout.
      rewrite Hraise in Hptr, Hout. destruct Hout as (Hdu & _ & Hebs).
      rewrite He' in Hebs.
      destruct (IH (after (append' x' y' xe' ye' st)) b1 Hebs Hb1 Hptr)
        as (b' & pd & Heq & Hdt' & Hlen' & Hdrop); [congruence|lia|].
      exists b', pd. rewrite Heq, Hdu. repeat split; auto.
      rewrite Hdrop. clear - Hb' Hp' Hb1.
      (* the rows after the first are not written by the call *)
      destruct st as [e0 bf pt pd0 du]; cbn in Hb', Hp'; subst.
      revert Hb1.
      unfold BufferCurve.append, bind, get, the_ptr, the_buffer, setitem_row,
        modify, ret, raise, bind, get, hasattr_errorBars, lift, outcome, after.
      cbn [_buffer _ptr _errorBars fst snd].
      destruct (length (rows b) <=? 0) eqn:Hlt; [cbn; now intros [= ->]|].
      apply Nat.leb_gt in Hlt.
      destruct (lookup_lt_is_Some_2 (rows b) 0 Hlt) as [row Hrow].
      cbn -[take drop np_max convert_all]. rewrite Hrow.
      destruct b as [dtb [|r0 tl]]; [cbn in Hlt; lia|].
      destruct (convert_all convert _ [Some x'; Some y']) as [err|cs];
        cbn -[take drop np_max convert_all]; [now intros [= <-]|].
      destruct e0 as [o0|]; cbn -[take drop np_max convert_all];
        [|now intros [= <-]].
      destruct (convert_all convert _ [xe'; ye']) as [err|ecs];
        cbn -[take drop np_max convert_all]; now intros [= <-]. }
  destruct (Hinv rs (mk (Some o) (Some (np_empty mem (S C) 4 dt)) (Some 0)
                        (plot_data st0) (data_updated st0))
              (np_empty mem (S C) 4 dt))
    as (b' & pd & Heq & Hdt' & Hlen' & Hdrop);
    try reflexivity; [rewrite np_empty_length; lia|].
  rewrite Heq. cbn [BufferCurve.attempts snd].
  destruct b' as [dtb [|r0 rest]]; [cbn in Hlen'; lia|].
  cbn in Hdt'. subst dtb.
  erewrite (append_errors_row_0 _ o dt r0 rest cells ecells); try reflexivity;
    try assumption.
  unfold after. cbn [snd data_updated]. cbn [rows drop] in Hdrop.
  now rewrite <- Hdrop.
Qed.
End BufferCurveMore.

(** ** ResultsCurve: construction, repeated updates and failed reloads *)

Section ResultsCurveMore.
Context {V : Type}.
Variable col_gt : list V -> list V -> exn + bool.

Import ResultsCurve.

Abbreviation update' := (ResultsCurve.update col_gt).
Abbreviation updates' := (ResultsCurve.updates col_gt).

#[local] Arguments Results.getitem : simpl never.
#[local] Arguments ResultsCurve.py_max : simpl never.

Ltac run_update' :=
  unfold ResultsCurve.update, bind, get, results_reload, Results.reload,
    modify, ret, raise, lift, hasattr_errorBars, outcome, after;
  cbn [results x y force_reload _errorBars xerr yerr plot_data fst snd
       Results.data Results.file Results.reloads].

Ltac split_update' :=
  repeat match goal with
  | |- context [match ?f ?n with Some _ => _ | None => _ end] =>
      destruct (f n) eqn:?; cbn
  | |- context [Results.getitem ?d ?k] =>
      is_var d; destruct (Results.getitem d k) eqn:?; cbn
  | |- context [ResultsCurve.py_max ?g ?a ?b] =>
      destruct (ResultsCurve.py_max g a b) eqn:?; cbn
  end.

Ltac same_lookups :=
  simplify_eq;
  repeat match goal with
  | H1 : ?t = _, H2 : ?t = _ |- _ => rewrite H1 in H2; simplify_eq
  end.

(** X6.  Without forced reload a second [update] changes nothing.  The
    call overwrites the series and the overlay from the snapshot, it does
    not add to them: calling it again on the curve it left gives the same
    outcome and the same curve, whether the first call returned or
    raised. *)
Theorem update_twice_is_update_once (c : t V) :
  force_reload c = false ->
  update' (after (update' c)) = update' c.
Proof.
  destruct c as [[d f n] cx cy fr eb ex ey pd]. cbn [force_reload]. intros ->.
  run_update'. destruct eb; cbn; split_update'; same_lookups; reflexivity.
Qed.

(** X7.  A curve constructed without error columns, that is with [None]
    or the empty string for both, has no error-bar item.  Its [update],
    the reload apart, returns exactly when the snapshot has the x and the y
    column; the series is then the pair of these columns, and no overlay is
    ever set. *)
Theorem update_without_error_columns (r : Results.t V) cx cy xe ye fr :
  truthy xe = false -> truthy ye = false ->
  (fr = true -> is_Some (Results.file r (Results.reloads r))) ->
  let c := __init__ r cx cy xe ye fr in
  let d := Results.data (results (after (update' c))) in
  (outcome (update' c) = inr tt <-> is_Some (d !! cx) /\ is_Some (d !! cy)) /\
  _errorBars (after (update' c)) = None /\
  (forall dx dy, d !! cx = Some dx -> d !! cy = Some dy ->
     plot_data (after (update' c)) = Some (dx, dy)).
Proof.
  intros Hx Hy Hrel. unfold __init__. rewrite Hx, Hy. cbn [orb]. cbv zeta.
  destruct r as [d f n]. cbn in Hrel. run_update'.
  destruct fr; cbn.
  - destruct (Hrel eq_refl) as [g ->]. cbn. unfold Results.getitem.
    destruct (g !! cx) as [dx|] eqn:Hdx; cbn; rewrite ?Hdx;
      [destruct (g !! cy) as [dy|] eqn:Hdy; cbn; rewrite ?Hdx, ?Hdy|];
      (split; [split; [try discriminate; eauto|intros [[? ?] [? ?]]; congruence]|]);
      (split; [reflexivity|congruence]).
  - unfold Results.getitem.
    destruct (d !! cx) as [dx|] eqn:Hdx; cbn; rewrite ?Hdx;
      [destruct (d !! cy) as [dy|] eqn:Hdy; cbn; rewrite ?Hdx, ?Hdy|];
      (split; [split; [try discriminate; eauto|intros [[? ?] [? ?]]; congruence]|]);
      (split; [reflexivity|congruence]).
Qed.

(** X8.  A curve constructed with one error column only never completes
    an [update].  The error-bar item is made as soon as one of the two
    names is given, and the call then reads both columns: the one whose name
    is [None] is no column of the snapshot, and the call raises. *)
Theorem update_with_one_error_column_raises (r : Results.t V) cx cy xe ye fr :
  truthy xe || truthy ye = true -> xe = None \/ ye = None ->
  raised (update' (__init__ r cx cy xe ye fr)).
Proof.
  intros Hen Hnone. unfold __init__. rewrite Hen.
  destruct r as [d f n]. unfold raised. run_update'.
  destruct fr; cbn; split_update'; eauto;
    destruct Hnone; subst; discriminate.
Qed.

Lemma update_reload_failed (c : t V) :
  force_reload c = true ->
  Results.file (results c) (Results.reloads (results c)) = None ->
  update' c =
    (inl IOError,
     mk (Results.mk (Results.data (results c)) (Results.file (results c))
                    (S (Results.reloads (results c))))
        (x c) (y c) true (_errorBars c) (xerr c) (yerr c) (plot_data c)).
Proof.
  destruct c as [[d f n] cx cy fr eb ex ey pd]. cbn. intros -> Hf.
  run_update'. now rewrite Hf.
Qed.

(** X9.  A reload that fails ends [update] with the exception of the
    reload, before any column is read.  While the reloads keep failing,
    any number of updates leaves the series, the overlay and the snapshot
    as they were; each call has made its one reload attempt. *)
Theorem failed_reloads_leave_the_curve n : forall c : t V,
  force_reload c = true ->
  (forall i, i < n ->
     Results.file (results c) (Results.reloads (results c) + i) = None) ->
  (0 < n -> outcome (update' c) = inl IOError) /\
  plot_data (updates' n c) = plot_data c /\
  _errorBars (updates' n c) = _errorBars c /\
  Results.data (results (updates' n c)) = Results.data (results c) /\
  Results.reloads (results (updates' n c)) = Results.reloads (results c) + n.
Proof.
  induction n as [|n IH]; intros c Hfr Hfail.
  - cbn. repeat split; auto; lia.
  - assert (H0 : Results.file (results c) (Results.reloads (results c)) = None).
    { rewrite <- (Nat.add_0_r (Results.reloads (results c))). apply Hfail. lia. }
    cbn [ResultsCurve.updates]. rewrite (update_reload_failed c Hfr H0).
    unfold outcome, after. cbn [fst snd].
    split; [reflexivity|].
    edestruct (IH (mk (Results.mk (Results.data (results c))
                         (Results.file (results c))
                         (S (Results.reloads (results c))))
                      (x c) (y c) true (_errorBars c) (xerr c) (yerr c)
                      (plot_data c))) as (_ & H1 & H2 & H3 & H4).
    + reflexivity.
    + intros i Hi. cbn.
      replace (S (Results.reloads (results c) + i))
        with (Results.reloads (results c) + S i) by lia.
      apply Hfail. lia.
    + rewrite H1, H2, H3, H4. cbn. repeat split; auto; lia.
Qed.
End ResultsCurveMore.

(** ** Crosshairs: pointer events and visibility *)

Section CrosshairsMore.
Context {R : Type}.

Import Crosshairs.

Lemma mouseMoved_event (st : t R) p rest :
  mouseMoved (Some (p :: rest)) st =
    (inr tt,
     mk (setPos (fst (mapSceneToView st p)) (vertical st))
        (setPos (snd (mapSceneToView st p)) (horizontal st))
        (Some p) (mapSceneToView st)
        (coordinates st ++ [mapSceneToView st p])).
Proof.
  destruct st as [v h q m cs]. cbn. now destruct (m p).
Qed.

(** X10.  Over a run of pointer events, the coordinates emitted are the
    positions of the events that carry one, mapped through the view
    transform, one emission per such event and in their order; the recorded
    position and the two guide lines follow the last of them, and the
    visibility of the lines is not touched.  A null event and an event with
    an empty tuple raise and change nothing. *)
Theorem mouse_events_publish events : forall st : t R,
  let points := omap event_point events in
  let st' := snd (mouse_events events st) in
  fst (mouse_events events st) = map event_outcome events /\
  coordinates st' = coordinates st ++ map (mapSceneToView st) points /\
  position st' = from_option Some (position st) (last points) /\
  pos (vertical st') =
    from_option (fun p => Some (fst (mapSceneToView st p)))
                (pos (vertical st)) (last points) /\
  pos (horizontal st') =
    from_option (fun p => Some (snd (mapSceneToView st p)))
                (pos (horizontal st)) (last points) /\
  visible (vertical st') = visible (vertical st) /\
  visible (horizontal st') = visible (horizontal st).
Proof.
  induction events as [|ev events IH]; intros st; cbv zeta.
  - cbn. rewrite app_nil_r. auto 10.
  - cbn [mouse_events fst snd map].
    destruct ev as [[|p rest]|].
    + (* an empty tuple *)
      cbn [omap list_omap event_point event_outcome].
      change (mouseMoved (Some []) st) with (@inl exn unit IndexError, st).
      unfold outcome, after. cbn [fst snd].
      destruct (IH st) as (H1 & H2). rewrite H1. auto.
    + (* an event with a position *)
      rewrite mouseMoved_event. unfold outcome, after. cbn [fst snd].
      cbn [omap list_omap event_point event_outcome].
      destruct (IH (mk (setPos (fst (mapSceneToView st p)) (vertical st))
                       (setPos (snd (mapSceneToView st p)) (horizontal st))
                       (Some p) (mapSceneToView st)
                       (coordinates st ++ [mapSceneToView st p])))
        as (H1 & H2 & H3 & H4 & H5 & H6 & H7).
      cbn [mapSceneToView coordinates position vertical horizontal pos visible
           setPos] in H2, H3, H4, H5, H6, H7.
      rewrite H1, H2, H3, H4, H5, H6, H7, <- app_assoc. cbn [map app].
      rewrite last_cons.
      destruct (last (omap event_point events)); cbn; auto 10.
    + (* a null event *)
      cbn [omap list_omap event_point event_outcome].
      change (mouseMoved None st) with (@inl exn unit not_known, st).
      unfold outcome, after. cbn [fst snd].
      destruct (IH st) as (H1 & H2). rewrite H1. auto.
Qed.

(** X11.  Hidden crosshairs still publish.  [hide] and [show] change the
    visibility of the two guide lines and nothing else, neither the recorded
    position nor where the lines are nor what was emitted; [update] does not
    look at the visibility, so hiding before an update or after it gives the
    same crosshairs, with the coordinates emitted; and [show] after [hide]
    is [show]. *)
Theorem hidden_crosshairs_still_publish (st : t R) :
  after (update (after (hide st))) = after (hide (after (update st))) /\
  coordinates (after (update (after (hide st)))) = coordinates (after (update st)) /\
  after (hide st) =
    mk (set_visible false (vertical st)) (set_visible false (horizontal st))
       (position st) (mapSceneToView st) (coordinates st) /\
  after (show st) =
    mk (set_visible true (vertical st)) (set_visible true (horizontal st))
       (position st) (mapSceneToView st) (coordinates st) /\
  after (show (after (hide st))) = after (show st).
Proof.
  destruct st as [[vp vv] [hp hv] [p|] m cs]; cbn; auto.
Qed.
End CrosshairsMore.

(** ** BN675: waiting for the trigger *)

Section WaitFacts.
Context {T : Type}.
Variable minus : T -> T -> T.
Variable gt : T -> T -> bool.
Variable nonzero : T -> bool.
Variable run_state_at : nat -> BN675.error + Z.
Variable time_at : nat -> T.

Import BN675.

Abbreviation wait_loop' := (BN675.wait_loop minus gt nonzero run_state_at time_at).
Abbreviation wait_for_trigger' :=
  (BN675.wait_for_trigger minus gt nonzero run_state_at time_at).

Abbreviation rounds_later' := (BN675.rounds_later nonzero).

(** A round goes on to the next one when [should_stop] is false, the state
    read is 0 and the time is not up. *)
Lemma wait_loop_idle k : forall fuel t0 timeout should_stop w,
  truth should_stop = false ->
  (forall i, i < k -> run_state_at (polls w + i) = inr 0%Z) ->
  (nonzero timeout = true ->
   forall i, i < k -> gt (minus (time_at (clock w + i)) t0) timeout = false) ->
  wait_loop' (k + fuel) t0 timeout should_stop w =
    wait_loop' fuel t0 timeout should_stop (rounds_later' timeout k w).
Proof.
  induction k as [|k IH]; intros fuel t0 timeout should_stop w Hstop Hidle Htime.
  - cbn. unfold rounds_later. destruct w as [p c]. cbn.
    destruct (nonzero timeout); now rewrite !Nat.add_0_r.
  - cbn [Nat.add BN675.wait_loop].
    assert (H0 : run_state_at (polls w) = inr 0%Z).
    { rewrite <- (Nat.add_0_r (polls w)). apply Hidle. lia. }
    rewrite H0. cbn [Z.eqb negb]. rewrite Hstop.
    destruct (nonzero timeout) eqn:Hnz.
    + assert (H1 : gt (minus (time_at (clock w)) t0) timeout = false).
      { rewrite <- (Nat.add_0_r (clock w)). apply Htime; [reflexivity|lia]. }
      cbn [polls clock]. rewrite H1.
      rewrite IH; try assumption.
      * unfold rounds_later. cbn [polls clock]. rewrite Hnz.
        do 2 f_equal; lia.
      * intros i Hi. cbn [polls].
        replace (S (polls w) + i) with (polls w + S i) by lia.
        apply Hidle. lia.
      * intros _ i Hi. cbn [clock].
        replace (S (clock w) + i) with (clock w + S i) by lia.
        apply Htime; [reflexivity|lia].
    + rewrite IH; try assumption.
      * unfold rounds_later. cbn [polls clock]. rewrite Hnz.
        do 2 f_equal; lia.
      * intros i Hi. cbn [polls].
        replace (S (polls w) + i) with (polls w + S i) by lia.
        apply Hidle. lia.
      * intros Hc. rewrite Hnz in Hc. discriminate Hc.
Qed.

(** X12.  With a function for [should_stop], the default one included,
    [wait_for_trigger] does not wait.  The loop tests the function object,
    which is true, and never calls it: whatever the function would answer,
    the call ends in the first round, after one read of [run_state]; when
    that read gives 0 and the time is not up it returns all the same. *)
Theorem wait_with_a_function_polls_once fuel (timeout : T) f (w : World) :
  exists r,
    wait_for_trigger' (S fuel) timeout (Function f) w = Some r /\
    wait_for_trigger' (S fuel) timeout (PyBool true) w = Some r /\
    polls (snd r) = S (polls w) /\
    (run_state_at (polls w) = inr 0%Z ->
     (nonzero timeout = true ->
      gt (minus (time_at (S (clock w))) (time_at (clock w))) timeout = false) ->
     fst r = inr tt).
Proof.
  unfold BN675.wait_for_trigger. cbn [BN675.wait_loop polls clock truth].
  destruct (run_state_at (polls w)) as [[|msg|name]|v] eqn:Hr; cbn [Z.eqb negb];
    try (eexists; repeat split; cbn; congruence).
  destruct (negb (v =? 0)%Z) eqn:Hv;
    [eexists; repeat split; cbn; intros [= ->]; discriminate Hv|].
  destruct (nonzero timeout) eqn:Hnz.
  - destruct (gt _ _) eqn:Hgt; eexists; repeat split; cbn; auto.
    intros _ Hno. specialize (Hno eq_refl). congruence.
  - eexists; repeat split; cbn; auto.
Qed.

(** X13.  With [should_stop] false, the call goes round while the state
    read is 0 and the time is not up, and ends at the first read that is
    not 0: it returns when the read gives another number, and also when the
    read raises the VISA exception, which is caught and taken for a state;
    any other exception of the read ends the call as it is.  Each round has
    made one read, and one call of [time()] when there is a timeout. *)
Theorem wait_ends_at_first_change k fuel (timeout : T) should_stop (w : World) r :
  truth should_stop = false ->
  (forall i, i < k -> run_state_at (polls w + i) = inr 0%Z) ->
  (nonzero timeout = true -> forall i, i < k ->
     gt (minus (time_at (S (clock w) + i)) (time_at (clock w))) timeout = false) ->
  run_state_at (polls w + k) = r -> r <> inr 0%Z ->
  wait_for_trigger' (k + S fuel) timeout should_stop w =
    Some (match r with
          | inl VisaIOError => inr tt
          | inl e => inl e
          | inr _ => inr tt
          end,
          mkWorld (polls w + k + 1)
                  (clock w + 1 + if nonzero timeout then k else 0)).
Proof.
  intros Hstop Hidle Htime Hr Hne. unfold BN675.wait_for_trigger.
  rewrite wait_loop_idle; [|exact Hstop|exact Hidle|exact Htime].
  unfold BN675.rounds_later. cbn [BN675.wait_loop polls clock].
  rewrite Hr.
  replace (S (polls w + k)) with (polls w + k + 1) by lia.
  replace (S (clock w) + (if nonzero timeout then k else 0))
    with (clock w + 1 + (if nonzero timeout then k else 0)) by lia.
  destruct r as [[|msg|name]|v]; try reflexivity.
  destruct (Z.eqb_spec v 0) as [->|Hv]; [contradiction|]. reflexivity.
Qed.

(** X14.  With [should_stop] false and a timeout that is not 0, the call
    raises [TimeoutError] in the first round in which, the state read being
    0, the time since the start exceeds the timeout; the state is read
    before the clock, so the round of the timeout has made its read. *)
Theorem wait_times_out k fuel (timeout : T) should_stop (w : World) :
  truth should_stop = false -> nonzero timeout = true ->
  (forall i, i <= k -> run_state_at (polls w + i) = inr 0%Z) ->
  (forall i, i < k ->
     gt (minus (time_at (S (clock w) + i)) (time_at (clock w))) timeout = false) ->
  gt (minus (time_at (S (clock w) + k)) (time_at (clock w))) timeout = true ->
  wait_for_trigger' (k + S fuel) timeout should_stop w =
    Some (inl timeout_expired, mkWorld (polls w + k + 1) (clock w + k + 2)).
Proof.
  intros Hstop Hnz Hidle Htime Hexp. unfold BN675.wait_for_trigger.
  rewrite wait_loop_idle;
    [|exact Hstop|intros i Hi; apply Hidle; lia|intros _; exact Htime].
  unfold BN675.rounds_later. cbn [BN675.wait_loop polls clock].
  rewrite Hnz, (Hidle k) by lia. cbn [Z.eqb negb polls clock].
  rewrite Hexp. do 3 f_equal; lia.
Qed.

(** X15.  Without a timeout the call can wait for ever, as its docstring
    says: with timeout 0 and [should_stop] false, while every read of the
    state gives 0 no number of rounds ends the call. *)
Theorem wait_without_timeout_goes_on fuel (timeout : T) should_stop (w : World) :
  truth should_stop = false -> nonzero timeout = false ->
  (forall n, run_state_at n = inr 0%Z) ->
  wait_for_trigger' fuel timeout should_stop w = None.
Proof.
  intros Hstop Hnz Hidle. unfold BN675.wait_for_trigger.
  rewrite <- (Nat.add_0_r fuel).
  rewrite wait_loop_idle; [reflexivity|exact Hstop| |].
  - intros i _. apply Hidle.
  - intros Hc. rewrite Hnz in Hc. discriminate Hc.
Qed.
End WaitFacts.

(** ** BN675: channels *)

Section ChannelFacts.
Import BN675.

Lemma channels_upto (n : nat) (k : Z) :
  foldl (fun attrs i =>
           <["ch" +:+ pretty (i + 1)%Z := Channel__init__ (i + 1)]> attrs)
        (∅ : gmap string Channel) (map Z.of_nat (seq 0 n))
    !! ("ch" +:+ pretty k)
  = if decide (1 <= k <= Z.of_nat n)%Z then Some (Channel__init__ k) else None.
Proof.
  induction n as [|n IH].
  - cbn. rewrite lookup_empty. now case_decide; [lia|].
  - rewrite seq_S, map_app, foldl_app. cbn [map foldl Nat.add].
    rewrite lookup_insert.
    destruct (decide ("ch" +:+ pretty (Z.of_nat n + 1)%Z = "ch" +:+ pretty k))
      as [Hkey|Hkey].
    + apply (inj (String.append "ch")), (inj pretty) in Hkey. subst k.
      clear IH. case_decide; [reflexivity|lia].
    + rewrite IH.
      assert (k <> Z.of_nat n + 1)%Z by (intros ->; now apply Hkey).
      repeat case_decide; try reflexivity; lia.
Qed.

(** X17.  The generator gets one channel attribute for each number from
    1 to the number of channels read from the instrument: the attribute
    [ch<k>] is there exactly for 1 <= k <= N, it is the channel of number
    k with no sequence element selected, and no two of the names fall
    together; for N <= 0 there is no channel attribute. *)
Theorem init_channels_by_name (num_chan k : Z) :
  init_channels num_chan !! ("ch" +:+ pretty k) =
    (if decide (1 <= k <= num_chan)%Z then Some (Channel__init__ k) else None) /\
  size (init_channels num_chan) = Z.to_nat num_chan.
Proof.
  unfold init_channels, range. split.
  - rewrite channels_upto. repeat case_decide; try reflexivity; lia.
  - generalize (Z.to_nat num_chan). intros n. induction n as [|n IH].
    + reflexivity.
    + rewrite seq_S, map_app, foldl_app. cbn [map foldl Nat.add].
      rewrite map_size_insert_None; [now rewrite IH|].
      rewrite channels_upto. case_decide; [lia|reflexivity].
Qed.
End ChannelFacts.

(** * The further properties on concrete inputs *)

Section MoreRuns.
Open Scope Z_scope.

Lemma capacity_bound_without_error_bars_witness :
  BufferCurve._errorBars (BufferCurve.__init__ (V:=Z) (D:=Demo.data_type) false)
    = None /\
  length Demo.records = 2%nat /\
  BufferCurve.stored_as Demo.convert Demo.float32 Demo.records [[1; 2]; [3; 4]] /\
  BufferCurve.attempts Demo.convert Demo.torn 0 Z.max
    (Demo.records ++ Cases.third_record) Demo.plain_curve
  = ([inr tt; inr tt; inl overflow],
     BufferCurve.mk None (Some (mk_ndarray Demo.float32 [[1; 2]; [3; 4]]))
       (Some 2%nat) (Some [[1; 2]]) 2%nat).
Proof.
  assert (Hst : BufferCurve.stored_as Demo.convert Demo.float32 Demo.records
                  [[1; 2]; [3; 4]])
    by (repeat constructor).
  split; [reflexivity|]. split; [reflexivity|]. split; [exact Hst|].
  exact (capacity_bound_without_error_bars Demo.convert Demo.torn 0 Z.max
           (BufferCurve.__init__ false) 2%nat Demo.float32 Demo.mem Demo.records
           [[1; 2]; [3; 4]] Cases.third_record eq_refl eq_refl Hst).
Defined.

Lemma appended_records_are_stored_witness :
  BufferCurve._errorBars (BufferCurve.__init__ (V:=Z) (D:=Demo.data_type) false)
    = None /\
  (length Cases.one_record <= 2)%nat /\
  BufferCurve.stored_as Demo.convert Demo.float32 Cases.one_record [[1; 2]] /\
  exists b,
    BufferCurve._buffer
      (after (BufferCurve.appends Demo.convert Demo.torn 0 Z.max Cases.one_record
                Demo.plain_curve))
      = Some b /\
    dtype b = Demo.float32 /\ length (rows b) = 2%nat /\
    (forall i r, Cases.one_record !! i = Some r ->
       exists row, BufferCurve.xy Demo.convert Demo.float32 r = inr row /\
                   rows b !! i = Some row) /\
    (forall i, (length Cases.one_record <= i)%nat ->
       rows b !! i = rows (np_empty Demo.mem 2 2 Demo.float32) !! i).
Proof.
  assert (Hlen : (length Cases.one_record <= 2)%nat) by (cbn; lia).
  assert (Hst : BufferCurve.stored_as Demo.convert Demo.float32 Cases.one_record
                  [[1; 2]])
    by (repeat constructor).
  split; [reflexivity|]. split; [exact Hlen|]. split; [exact Hst|].
  exact (appended_records_are_stored Demo.convert Demo.torn 0 Z.max
           (BufferCurve.__init__ false) 2%nat Demo.float32 Demo.mem
           Cases.one_record [[1; 2]] eq_refl Hlen Hst).
Defined.

Lemma cursor_stays_in_bounds_witness :
  cursor_in_bounds Demo.plain_curve /\
  cursor_in_bounds
    (after (BufferCurve.append Demo.convert Demo.torn 0 Z.max 1 2 None None
              Demo.plain_curve)) /\
  cursor_in_bounds
    (after (BufferCurve.append Demo.convert Demo.torn 0 Z.max 1 2 (Some 3) (Some 4)
              Demo.error_curve)).
Proof.
  destruct (cursor_stays_in_bounds Demo.convert Demo.torn 0 Z.max
              (BufferCurve.__init__ false) Demo.plain_curve 2%nat Demo.float32
              Demo.mem 1 2 None None) as (Hprep & Hkeep & _).
  destruct (cursor_stays_in_bounds Demo.convert Demo.torn 0 Z.max
              (BufferCurve.__init__ true) Demo.error_curve 2%nat Demo.float32
              Demo.mem 1 2 (Some 3) (Some 4))
    as (Hprep' & Hkeep' & _).
  split; [exact Hprep|]. split; [exact (Hkeep Hprep)|exact (Hkeep' Hprep')].
Defined.

Lemma failed_append_overwrites_row_0_witness :
  BufferCurve._errorBars (BufferCurve.__init__ (V:=Z) (D:=Demo.data_type) true)
    = Some None /\
  convert_all Demo.convert Demo.float32 [Some 5; Some 6] = inr [5; 6] /\
  convert_all Demo.convert Demo.float32 [Some 7; None] = inr [7; 0] /\
  snd (BufferCurve.attempts Demo.convert Demo.torn 0 Z.max
         (Cases.first_with_errors ++ [(5, 6, Some 7, None)]) Demo.error_curve)
  = BufferCurve.mk (Some None)
      (Some (mk_ndarray Demo.float32 [[5; 6; 7; 0]; [0; 0; 0; 0]]))
      (Some 0%nat) (Some []) 0%nat.
Proof.
  split; [reflexivity|]. split; [reflexivity|]. split; [reflexivity|].
  exact (failed_append_overwrites_row_0 Demo.convert Demo.torn 0 Z.max
           (BufferCurve.__init__ true) None 1%nat Demo.float32 Demo.mem
           Cases.first_with_errors 5 6 (Some 7) None [5; 6] [7; 0]
           eq_refl eq_refl eq_refl).
Defined.

(** Text for x: the call raises at the write of the record, before
    anything is published, and the curve stays as [prepare] left it. *)
Lemma append_of_text_raises :
  BufferCurve.append Cases.convert_value Cases.untouched 0 Z.max
    (Cases.Str "a") (Cases.Num 2) None None Demo.plain_curve
  = (inl (ValueError "could not convert string to float"), Demo.plain_curve).
Proof.
  exact (append_unconvertible Cases.convert_value Cases.untouched 0 Z.max
           Demo.plain_curve (np_empty Demo.mem 2 2 Demo.float32) 0%nat [0; 0]
           (Cases.Str "a") (Cases.Num 2) None None _
           eq_refl eq_refl eq_refl eq_refl).
Qed.


Lemma update_twice_is_update_once_witness :
  ResultsCurve.force_reload Demo.curve = false /\
  ResultsCurve.update Demo.col_gt (after (ResultsCurve.update Demo.col_gt Demo.curve))
  = ResultsCurve.update Demo.col_gt Demo.curve /\
  ResultsCurve.update Demo.col_gt
    (after (ResultsCurve.update Demo.col_gt Demo.curve_no_dy))
  = ResultsCurve.update Demo.col_gt Demo.curve_no_dy.
Proof.
  split; [reflexivity|].
  split; [exact (update_twice_is_update_once Demo.col_gt Demo.curve eq_refl)|].
  exact (update_twice_is_update_once Demo.col_gt Demo.curve_no_dy eq_refl).
Defined.

Lemma update_without_error_columns_witness :
  ResultsCurve.truthy None = false /\
  ResultsCurve.truthy (Some EmptyString) = false /\
  outcome (ResultsCurve.update Demo.col_gt
             (ResultsCurve.__init__ (Demo.results_of Demo.snapshot) "x" "y"
                None (Some EmptyString) true)) = inr tt /\
  ResultsCurve._errorBars
    (after (ResultsCurve.update Demo.col_gt
              (ResultsCurve.__init__ (Demo.results_of Demo.snapshot) "x" "y"
                 None (Some EmptyString) true))) = None.
Proof.
  destruct (update_without_error_columns Demo.col_gt
              (Demo.results_of Demo.snapshot) "x" "y" None (Some EmptyString) true
              eq_refl eq_refl (fun _ => mk_is_Some _ _ eq_refl))
    as (Hiff & Hnone & _).
  split; [reflexivity|]. split; [reflexivity|].
  split; [|exact Hnone].
  apply (proj2 Hiff). split; eexists; vm_compute; reflexivity.
Defined.

Lemma update_with_one_error_column_raises_witness :
  ResultsCurve.truthy (Some "dx") || ResultsCurve.truthy None = true /\
  raised (ResultsCurve.update Demo.col_gt
            (ResultsCurve.__init__ (Demo.results_of Demo.snapshot) "x" "y"
               (Some "dx") None false)).
Proof.
  split; [reflexivity|].
  exact (update_with_one_error_column_raises Demo.col_gt
           (Demo.results_of Demo.snapshot) "x" "y" (Some "dx") None false
           eq_refl (or_intror eq_refl)).
Defined.

Lemma failed_reloads_leave_the_curve_witness :
  ResultsCurve.force_reload Cases.curve_unreadable = true /\
  outcome (ResultsCurve.update Demo.col_gt Cases.curve_unreadable) = inl IOError /\
  ResultsCurve.plot_data (ResultsCurve.updates Demo.col_gt 3 Cases.curve_unreadable)
    = None /\
  Results.reloads
    (ResultsCurve.results (ResultsCurve.updates Demo.col_gt 3 Cases.curve_unreadable))
    = 3%nat.
Proof.
  destruct (failed_reloads_leave_the_curve Demo.col_gt 3 Cases.curve_unreadable
              eq_refl (fun _ _ => eq_refl)) as (Hraise & Hpd & _ & _ & Hn).
  split; [reflexivity|]. split; [apply Hraise; lia|].
  split; [exact Hpd|exact Hn].
Defined.

Lemma wait_with_a_function_polls_once_witness :
  Cases.stopped 0%nat = inr 0 /\
  BN675.wait_for_trigger Z.sub Z.gtb Cases.nonzero Cases.stopped Cases.time_at
    1 3600 (BN675.Function (fun _ => false)) Cases.world
  = Some (inr tt, BN675.mkWorld 1 2).
Proof.
  destruct (wait_with_a_function_polls_once Z.sub Z.gtb Cases.nonzero
              Cases.stopped Cases.time_at 0 3600 (fun _ => false) Cases.world)
    as (r & Hr & _ & _ & _).
  split; [reflexivity|].
  rewrite Hr. vm_compute in Hr. symmetry. exact Hr.
Defined.

Lemma wait_ends_at_first_change_witness :
  BN675.truth BN675.PyNone = false /\
  Cases.starts_at_2 2%nat = inr 2 /\
  BN675.wait_for_trigger Z.sub Z.gtb Cases.nonzero Cases.starts_at_2 Cases.time_at
    3 3600 BN675.PyNone Cases.world
  = Some (inr tt, BN675.mkWorld 3 3).
Proof.
  split; [reflexivity|]. split; [reflexivity|].
  refine (wait_ends_at_first_change Z.sub Z.gtb Cases.nonzero Cases.starts_at_2
            Cases.time_at 2 0 3600 BN675.PyNone Cases.world (inr 2)
            eq_refl _ _ eq_refl _).
  - intros i Hi. destruct i as [|[|i]]; [reflexivity|reflexivity|lia].
  - intros _ i Hi. destruct i as [|[|i]]; [reflexivity|reflexivity|lia].
  - discriminate.
Defined.

Lemma wait_times_out_witness :
  BN675.truth (BN675.PyBool false) = false /\ Cases.nonzero 2 = true /\
  BN675.wait_for_trigger Z.sub Z.gtb Cases.nonzero Cases.stopped Cases.time_at
    3 2 (BN675.PyBool false) Cases.world
  = Some (inl BN675.timeout_expired, BN675.mkWorld 3 4).
Proof.
  split; [reflexivity|]. split; [reflexivity|].
  refine (wait_times_out Z.sub Z.gtb Cases.nonzero Cases.stopped Cases.time_at
            2 0 2 (BN675.PyBool false) Cases.world eq_refl eq_refl _ _ eq_refl).
  - intros i _. reflexivity.
  - intros i Hi. destruct i as [|[|i]]; [reflexivity|reflexivity|lia].
Defined.

Lemma wait_without_timeout_goes_on_witness :
  BN675.truth BN675.PyNone = false /\ Cases.nonzero 0 = false /\
  BN675.wait_for_trigger Z.sub Z.gtb Cases.nonzero Cases.stopped Cases.time_at
    1000 0 BN675.PyNone Cases.world
  = None.
Proof.
  split; [reflexivity|]. split; [reflexivity|].
  exact (wait_without_timeout_goes_on Z.sub Z.gtb Cases.nonzero Cases.stopped
           Cases.time_at 1000 0 BN675.PyNone Cases.world eq_refl eq_refl
           (fun _ => eq_refl)).
Defined.
End MoreRuns.
